(** * Karaoke request front end: session store, request client, auth provider

    A shallow embedding of [src/utils/auth.ts], of the request helpers of
    [src/utils/api.ts] and of the [AuthProvider] of [src/context/AuthContext.tsx],
    with the properties of the session layer and of the error normaliser.

    The browser is modelled by what the code can observe of it:
    - [localStorage] is an interface ([LocalStorage]) whose three calls may
      throw; [MemStorage] is the string map with fault injection;
    - [JSON.parse], [JSON.stringify] and [String(...)] are the runtime's
      ([JSRuntime]);
    - [fetch] is a function from the issued request to its outcome;
    - the console, the router and the React state of the provider are
      fields of the [World] that every function threads. *)

From Stdlib Require Import Floats.
From stdpp Require Import base option list strings gmap pretty.

Set Default Proof Using "Type".
Set Warnings "-register-all".
Local Open Scope string_scope.

(** ** JavaScript values *)

(** The values [JSON.parse] can return, plus [undefined]. An object keeps
    its properties in insertion order. *)
Inductive value : Type :=
  | VUndefined
  | VNull
  | VBool (b : bool)
  | VNum (n : float)
  | VStr (s : string)
  | VArr (items : list value)
  | VObj (fields : list (string * value)).

(** [!!s] for a string. *)
Definition nonempty (s : string) : bool := negb (String.eqb s "").

(** [!!v]: false for [undefined], [null], [false], [0], [-0], [NaN] and
    the empty string. *)
Definition truthy (v : value) : bool :=
  match v with
  | VUndefined | VNull => false
  | VBool b => b
  | VNum n => negb (PrimFloat.is_zero n || PrimFloat.is_nan n)
  | VStr s => nonempty s
  | VArr _ | VObj _ => true
  end.

(** [typeof v]. *)
Definition typeof (v : value) : string :=
  match v with
  | VUndefined => "undefined"
  | VNull | VArr _ | VObj _ => "object"
  | VBool _ => "boolean"
  | VNum _ => "number"
  | VStr _ => "string"
  end.

Fixpoint assoc (k : string) (fields : list (string * value)) : value :=
  match fields with
  | [] => VUndefined
  | (k', v) :: rest => if String.eqb k k' then v else assoc k rest
  end.

(** [a || b] on values. *)
Definition or_else (a b : value) : value := if truthy a then a else b.

(** [s || d] on strings. *)
Definition str_or (s d : string) : string := if nonempty s then s else d.

(** [s || d] where [s] is a string or [undefined]. *)
Definition env_or (s : option string) (d : string) : string :=
  match s with
  | Some s' => str_or s' d
  | None => d
  end.

(** [v === true]. *)
Definition is_true (v : value) : bool :=
  match v with
  | VBool true => true
  | _ => false
  end.

(** ** Errors *)

(** A built-in error object ([TypeError], [SyntaxError], [DOMException]):
    the two properties the code reads. *)
Record NativeError : Type := mkNativeError {
  ne_message : string;
  ne_stack : option string;
}.

(** [interface ApiError extends Error] of [src/types], as [createApiError]
    fills it. [status = None] is [undefined]. *)
Module ApiError.
Record t : Type := mk {
  message : string;
  error : bool;
  errorString : value;
  status : option N;
  details : value;
  isApiError : bool;
  apiResponse : value;
}.
End ApiError.

(** What a [throw] carries, and what a rejected promise carries. *)
Inductive Exn : Type :=
  | ENative (e : NativeError)
  | EApi (e : ApiError.t).

(** Reading property [k] of [v]: a [TypeError] on [null] and [undefined],
    [undefined] for a property that is not there. None of the names the
    code reads is a built-in property of an array, a string, a number or
    a boolean. *)
Definition getProp (v : value) (k : string) : NativeError + value :=
  match v with
  | VUndefined =>
      inl (mkNativeError ("Cannot read properties of undefined (reading '" ++ k ++ "')") None)
  | VNull =>
      inl (mkNativeError ("Cannot read properties of null (reading '" ++ k ++ "')") None)
  | VObj fields => inr (assoc k fields)
  | _ => inr VUndefined
  end.

(** The values that [String(v)] and [new Error(v)] cannot convert to a
    string. An object that [JSON.parse] made holds no function: with a
    property [toString] of its own, neither that nor the inherited
    [valueOf] gives a primitive. An array joins the conversions of its
    elements. *)
Fixpoint cannot_convert (v : value) : bool :=
  match v with
  | VObj fields => existsb (fun p => String.eqb (fst p) "toString") fields
  | VArr items => existsb cannot_convert items
  | _ => false
  end.

(** ** The runtime *)

Class JSRuntime : Type := {
  (** [JSON.parse]; [inl] is the [SyntaxError] it throws. *)
  JSON_parse : string -> NativeError + value;
  (** [JSON.stringify] of an object, given by its properties. *)
  JSON_stringify : list (string * value) -> string;
  (** The text of [String(v)], for a [v] that converts. *)
  ToString : value -> string;
  (** The [TypeError] of the engine for a [v] that does not. *)
  conversion_error : NativeError;
  encodeURIComponent : string -> string;
  (** [import.meta.env]. *)
  VITE_API_HOST : option string;
  VITE_API_PORT : option string;
  (** The empty text is not JSON. *)
  JSON_parse_empty : exists e, JSON_parse "" = inl e;
}.

(** [window.localStorage]: each call returns or throws, and leaves the
    storage in some state. *)
Class LocalStorage (S : Type) : Type := {
  getItem : string -> S -> (NativeError + option string) * S;
  setItem : string -> string -> S -> (NativeError + unit) * S;
  removeItem : string -> S -> (NativeError + unit) * S;
}.
Global Arguments getItem : simpl never.
Global Arguments setItem : simpl never.
Global Arguments removeItem : simpl never.

(** ** The world *)

Inductive LogLevel : Type := LLog | LWarn | LError.

(** What [fetch] is called with. *)
Record Request : Type := mkRequest {
  req_url : string;
  req_method : option string;
  req_headers : gmap string string;
  req_body : option string;
}.

(** [interface User] of [src/types]. *)
Module User.
Record t : Type := mk {
  id : float;
  patronId : float;
  first_name : string;
  last_name : string;
  email : string;
  mobile_number : option string;
}.

(** The object behind a [User]: its own properties. *)
Definition fields (u : t) : list (string * value) :=
  [("id", VNum (id u)); ("patronId", VNum (patronId u));
   ("first_name", VStr (first_name u)); ("last_name", VStr (last_name u));
   ("email", VStr (email u))]
  ++ match mobile_number u with
     | Some m => [("mobile_number", VStr m)]
     | None => []
     end.

Definition to_value (u : t) : value := VObj (fields u).
End User.

(** [useState] of the provider: [token], [user], [isLoading]. A [user]
    read back from storage is whatever [JSON.parse] gave. *)
Module AuthState.
Record t : Type := mk {
  token : option string;
  user : option value;
  isLoading : bool;
}.
End AuthState.

Record World (S : Type) : Type := mkWorld {
  storage : S;
  console : list (LogLevel * string);
  auth : AuthState.t;
  history : list (string * bool);
  issued : list Request;
}.
Arguments mkWorld {S}.
Arguments storage {S}.
Arguments console {S}.
Arguments auth {S}.
Arguments history {S}.
Arguments issued {S}.

(** ** Computations: state and exceptions *)

Inductive Completion (A : Type) : Type :=
  | Normal (a : A)
  | Throw (e : Exn).
Arguments Normal {A}.
Arguments Throw {A}.

Definition M (S A : Type) : Type := World S -> Completion A * World S.

Definition ret {S A} (a : A) : M S A := fun w => (Normal a, w).

(** Sequencing: a [Throw] skips the rest. *)
Definition bind {S A B} (m : M S A) (f : A -> M S B) : M S B :=
  fun w =>
    match m w with
    | (Normal a, w') => f a w'
    | (Throw e, w') => (Throw e, w')
    end.

Notation "'let*' x ':=' c1 'in' c2" := (bind c1 (fun x => c2))
  (at level 10, x name, c1 at level 100, c2 at level 200,
   format "'[v' 'let*'  x  ':='  c1  'in' '/' c2 ']'").
Notation "c1 ;; c2" := (bind c1 (fun _ => c2))
  (at level 100, c2 at level 200, right associativity).

Definition throw {S A} (e : Exn) : M S A := fun w => (Throw e, w).

(** [try { body } catch (e) { handler }]. *)
Definition try_catch {S A} (body : M S A) (handler : Exn -> M S A) : M S A :=
  fun w =>
    match body w with
    | (Normal a, w') => (Normal a, w')
    | (Throw e, w') => handler e w'
    end.

(** [try { body } finally { final }]. *)
Definition try_finally {S A} (body : M S A) (final : M S unit) : M S A :=
  fun w =>
    match body w with
    | (r, w') =>
        match final w' with
        | (Normal _, w'') => (r, w'')
        | (Throw e, w'') => (Throw e, w'')
        end
    end.

Definition modify {S} (f : World S -> World S) : M S unit :=
  fun w => (Normal tt, f w).

Definition result {S A} (m : M S A) (w : World S) : Completion A := fst (m w).
Definition after {S A} (m : M S A) (w : World S) : World S := snd (m w).


Definition lift {S A} (r : NativeError + A) : M S A :=
  match r with
  | inr a => ret a
  | inl e => throw (ENative e)
  end.

(** [v.k] *)
Definition prop {S} (v : value) (k : string) : M S value := lift (getProp v k).

Section Effects.
Context {S : Type}.

Definition set_storage (s : S) (w : World S) : World S :=
  mkWorld s (console w) (auth w) (history w) (issued w).

Definition set_auth (a : AuthState.t) (w : World S) : World S :=
  mkWorld (storage w) (console w) a (history w) (issued w).

(** The world with one more line on the console. *)
Definition say (l : LogLevel) (msg : string) (w : World S) : World S :=
  mkWorld (storage w) (console w ++ [(l, msg)]) (auth w) (history w) (issued w).

Definition console_write (l : LogLevel) (msg : string) : M S unit :=
  modify (say l msg).

(** Each entry keeps the level and the first argument of the call. *)
Definition console_log := console_write LLog.
Definition console_warn := console_write LWarn.
Definition console_error := console_write LError.

(** [navigate(path, { replace })] of the router. *)
Definition navigate (path : string) (replace : bool) : M S unit :=
  modify (fun w =>
    mkWorld (storage w) (console w) (auth w) (history w ++ [(path, replace)]) (issued w)).

Definition setTokenState (t : option string) : M S unit :=
  modify (fun w =>
    set_auth (AuthState.mk t (AuthState.user (auth w)) (AuthState.isLoading (auth w))) w).

Definition setUserState (u : option value) : M S unit :=
  modify (fun w =>
    set_auth (AuthState.mk (AuthState.token (auth w)) u (AuthState.isLoading (auth w))) w).

Definition setIsLoading (b : bool) : M S unit :=
  modify (fun w =>
    set_auth (AuthState.mk (AuthState.token (auth w)) (AuthState.user (auth w)) b) w).

Context `{LocalStorage S}.

Definition storage_call {A} (call : S -> (NativeError + A) * S) : M S A :=
  fun w =>
    match call (storage w) with
    | (inr a, s') => (Normal a, set_storage s' w)
    | (inl e, s') => (Throw (ENative e), set_storage s' w)
    end.

Definition localStorage_getItem (k : string) : M S (option string) :=
  storage_call (getItem k).
Definition localStorage_setItem (k v : string) : M S unit :=
  storage_call (setItem k v).
Definition localStorage_removeItem (k : string) : M S unit :=
  storage_call (removeItem k).
End Effects.

(** ** [src/utils/auth.ts] *)

Definition TOKEN_KEY : string := "authToken".
Definition USER_KEY : string := "authUser".

Section Auth.
Context {S : Type} `{LocalStorage S} `{JSRuntime}.

Definition setAuthToken (token : string) : M S unit :=
  try_catch
    (localStorage_setItem TOKEN_KEY token;;
     console_log "Auth Token stored in localStorage.")
    (fun _ => console_error "Error storing auth token in localStorage:").

Definition getAuthToken : M S (option string) :=
  try_catch
    (localStorage_getItem TOKEN_KEY)
    (fun _ =>
       console_error "Error retrieving auth token from localStorage:";;
       ret None).

Definition removeAuthToken : M S unit :=
  try_catch
    (localStorage_removeItem TOKEN_KEY;;
     console_log "Auth Token removed from localStorage.")
    (fun _ => console_error "Error removing auth token from localStorage:").

Definition setUserInStorage (user : User.t) : M S unit :=
  try_catch
    (let userToStore := User.fields user in
     localStorage_setItem USER_KEY (JSON_stringify userToStore);;
     console_log "User object stored in localStorage.")
    (fun _ => console_error "Error storing user object in localStorage:").

Definition removeUserFromStorage : M S unit :=
  try_catch
    (localStorage_removeItem USER_KEY;;
     console_log "User object removed from localStorage.")
    (fun _ => console_error "Error removing user object from localStorage:").

(** [user && typeof user === 'object' && user.email], as a boolean. *)
Definition basic_check (user : value) : M S bool :=
  if truthy user then
    if String.eqb (typeof user) "object" then
      let* e := prop user "email" in ret (truthy e)
    else ret false
  else ret false.

Definition getUserFromStorage : M S (option value) :=
  try_catch
    (let* storedUser := localStorage_getItem USER_KEY in
     match storedUser with
     | Some text =>
         if nonempty text then
           let* user := lift (JSON_parse text) in
           let* ok := basic_check user in
           if ok then
             console_log "User object retrieved from localStorage:";;
             ret (Some user)
           else
             console_warn "Invalid user object found in localStorage. Removing.";;
             removeUserFromStorage;;
             ret None
         else ret None
     | None => ret None
     end)
    (fun _ =>
       console_error "Error retrieving or parsing user object from localStorage:";;
       removeUserFromStorage;;
       ret None).
End Auth.

(** What the check of [getUserFromStorage] accepts: an object with a
    truthy [email]. *)
Definition accepted (user : value) : bool :=
  match user with
  | VObj fields => truthy (assoc "email" fields)
  | _ => false
  end.

(** The profile a stored text stands for, if the read accepts it. *)
Definition profile_of `{JSRuntime} (text : string) : option value :=
  match JSON_parse text with
  | inr user => if accepted user then Some user else None
  | inl _ => None
  end.

(** ** [src/context/AuthContext.tsx] *)

(** [!!token] and [!!user] on the nullable state. *)
Definition truthy_token (t : option string) : bool :=
  match t with
  | Some s => nonempty s
  | None => false
  end.

Definition truthy_user (u : option value) : bool :=
  match u with
  | Some v => truthy v
  | None => false
  end.

(** A [User | null] as the value it is. *)
Definition nullable (u : option value) : value :=
  match u with
  | Some v => v
  | None => VNull
  end.

(** [const isAuthenticated = !!token && !!user]. *)
Definition isAuthenticated (a : AuthState.t) : bool :=
  truthy_token (AuthState.token a) && truthy_user (AuthState.user a).

(** The provider before its effect has run. *)
Definition initial_auth : AuthState.t := AuthState.mk None None true.

Section AuthProvider.
Context {S : Type} `{LocalStorage S} `{JSRuntime}.

(** [storedUser.id && storedUser.email && storedUser.patronId], as a
    boolean. *)
Definition expected_properties (storedUser : value) : M S bool :=
  let* i := prop storedUser "id" in
  if truthy i then
    let* e := prop storedUser "email" in
    if truthy e then
      let* p := prop storedUser "patronId" in ret (truthy p)
    else ret false
  else ret false.

(** The effect that runs once on mount. *)
Definition initialize : M S unit :=
  console_log "AuthProvider: Initializing auth state...";;
  setIsLoading true;;
  try_finally
    (try_catch
       (let* storedToken := getAuthToken in
        let* storedUser := getUserFromStorage in
        if truthy_token storedToken && truthy_user storedUser then
          console_log "AuthProvider: Found token and user in storage.";;
          let* valid := expected_properties (nullable storedUser) in
          if valid then
            setTokenState storedToken;;
            setUserState storedUser;;
            console_log "AuthProvider: State updated from storage."
          else
            console_warn "AuthProvider: Stored user data is invalid. Clearing auth state.";;
            removeAuthToken;;
            removeUserFromStorage;;
            setTokenState None;;
            setUserState None
        else
          console_log "AuthProvider: No valid token/user found in storage.";;
          setTokenState None;;
          setUserState None)
       (fun _ =>
          console_error "AuthProvider: Error during initialization:";;
          removeAuthToken;;
          removeUserFromStorage;;
          setTokenState None;;
          setUserState None))
    (setIsLoading false;;
     console_log "AuthProvider: Initialization complete.").

Definition login (newToken : string) (loggedInUser : User.t) : M S unit :=
  console_log "AuthContext: login called with user:";;
  try_catch
    (setAuthToken newToken;;
     setUserInStorage loggedInUser;;
     setTokenState (Some newToken);;
     setUserState (Some (User.to_value loggedInUser));;
     console_log "AuthContext: State updated after login. Navigating to /favorites...";;
     navigate "/favorites" true)
    (fun _ => console_error "AuthContext: Error during login state update:").

Definition logout : M S unit :=
  console_log "AuthContext: logout called.";;
  try_catch
    (removeAuthToken;;
     removeUserFromStorage;;
     setTokenState None;;
     setUserState None;;
     console_log "AuthContext: State cleared. Navigating to /login...";;
     navigate "/login" true)
    (fun _ => console_error "AuthContext: Error during logout state update:").
End AuthProvider.

(** What [initialize] expects of a stored profile: truthy [id], [email]
    and [patronId]. *)
Definition expected (profile : value) : bool :=
  match profile with
  | VObj fields =>
      truthy (assoc "id" fields) && truthy (assoc "email" fields)
      && truthy (assoc "patronId" fields)
  | _ => false
  end.

(** [login] and [logout], as the transitions a consumer can trigger. *)
Inductive Transition : Type :=
  | Login (newToken : string) (loggedInUser : User.t)
  | Logout.

Definition transition {S : Type} `{LocalStorage S} `{JSRuntime} (t : Transition)
    : M S unit :=
  match t with
  | Login newToken loggedInUser => login newToken loggedInUser
  | Logout => logout
  end.

(** The world after the transitions [ts], in order. *)
Fixpoint after_all {S : Type} `{LocalStorage S} `{JSRuntime} (ts : list Transition)
    (w : World S) : World S :=
  match ts with
  | [] => w
  | t :: rest => after_all rest (after (transition t) w)
  end.

(** Token and profile are held together: both [null], or a token with a
    truthy profile. *)
Definition paired (a : AuthState.t) : Prop :=
  (AuthState.token a = None /\ AuthState.user a = None) \/
  (exists t u, AuthState.token a = Some t /\ AuthState.user a = Some u /\
               truthy u = true).

(** The states of the session, read off the provider: children are not
    rendered while [isLoading]. *)
Inductive Status : Type := Unknown | Unauthenticated | Authenticated.

Definition status_of (a : AuthState.t) : Status :=
  if AuthState.isLoading a then Unknown
  else if isAuthenticated a then Authenticated
  else Unauthenticated.

(** A page load: storage persists, everything in memory starts afresh. *)
Definition reload {S} (w : World S) : World S :=
  mkWorld (storage w) [] initial_auth [] [].

(** ** [localStorage] as a string map with fault injection *)

(** [faults] schedules the coming calls: [true] makes the call throw and
    leave the entries as they are; after the schedule every call works. *)
Record MemStorage : Type := mkMem {
  items : gmap string string;
  faults : list bool;
}.

Definition storage_failure : NativeError :=
  mkNativeError "The operation is insecure." None.

Definition next_call (s : MemStorage) : bool * MemStorage :=
  match faults s with
  | [] => (false, s)
  | f :: rest => (f, mkMem (items s) rest)
  end.

Global Instance MemStorage_localStorage : LocalStorage MemStorage := {
  getItem k s :=
    let '(fails, s') := next_call s in
    if fails then (inl storage_failure, s') else (inr (items s' !! k), s');
  setItem k v s :=
    let '(fails, s') := next_call s in
    if fails then (inl storage_failure, s')
    else (inr tt, mkMem (<[k := v]> (items s')) (faults s'));
  removeItem k s :=
    let '(fails, s') := next_call s in
    if fails then (inl storage_failure, s')
    else (inr tt, mkMem (delete k (items s')) (faults s'));
}.

(** ** [src/utils/api.ts] *)

(** The [Response] of [fetch]: [text] is what [await response.text()]
    gives, or the error it rejects with. *)
Module Response.
Record t : Type := mk {
  status : N;
  statusText : string;
  text : NativeError + string;
}.

(** [response.ok]: the status is in the range 200-299. *)
Definition ok (r : t) : bool := (200 <=? status r)%N && (status r <=? 299)%N.
End Response.

(** What [await fetch(...)] gives: a rejection before any response, or a
    response. *)
Inductive FetchOutcome : Type :=
  | NetworkFailure (e : NativeError)
  | Responded (r : Response.t).

(** The [RequestInit] the endpoints pass: [{}] is [RequestInit.empty]. *)
Module RequestInit.
Record t : Type := mk {
  method : option string;
  headers : gmap string string;
  body : option string;
}.
Definition empty : t := mk None ∅ None.
End RequestInit.

(** [error.isApiError], [error.message] and [error.stack] of a caught
    value. *)
Definition exn_isApiError (e : Exn) : bool :=
  match e with
  | EApi a => ApiError.isApiError a
  | ENative _ => false
  end.

Definition exn_message (e : Exn) : string :=
  match e with
  | EApi a => ApiError.message a
  | ENative n => ne_message n
  end.

Definition exn_stack (e : Exn) : value :=
  match e with
  | EApi _ => VUndefined
  | ENative n =>
      match ne_stack n with
      | Some s => VStr s
      | None => VUndefined
      end
  end.

Definition defaultHeaders : gmap string string :=
  <["Content-Type" := "application/json"]> (<["Accept" := "application/json"]> ∅).

Section Api.
Context {S : Type} `{JSRuntime}.

(** The network: the outcome of each request. *)
Variable network : Request -> FetchOutcome.

Definition API_HOST : string := env_or VITE_API_HOST "http://localhost".
Definition API_PORT : string := env_or VITE_API_PORT "3000".
Definition API_BASE_URL : string := API_HOST ++ ":" ++ API_PORT ++ "/api".

(** The object that [createApiError] returns. *)
Definition api_error (message : value) (status : option N)
    (details responseData : value) : ApiError.t :=
  ApiError.mk (ToString message) true message status details true responseData.

(** [new Error(message)] converts the message first, and throws when it
    cannot. *)
Definition createApiError (message : value) (status : option N)
    (details responseData : value) : NativeError + ApiError.t :=
  if cannot_convert message then inl conversion_error
  else inr (api_error message status details responseData).

(** [throw createApiError(...)]. *)
Definition throw_ApiError {A : Type} (message : value) (status : option N)
    (details responseData : value) : M S A :=
  let* apiError := lift (createApiError message status details responseData) in
  throw (EApi apiError).

(** [await fetch(url, config)]: the request goes out, then the promise
    settles. *)
Definition fetch (config : Request) : M S Response.t :=
  modify (fun w =>
    mkWorld (storage w) (console w) (auth w) (history w) (issued w ++ [config]));;
  match network config with
  | NetworkFailure e => throw (ENative e)
  | Responded r => ret r
  end.

(** The inner [try]: the parsed body, or ([inl]) the text that the
    [catch] returns from [handleRequest] with. *)
Definition parse_body (response : Response.t) (responseText : string)
    : M S (string + value) :=
  try_catch
    (let* responseData := lift (JSON_parse responseText) in
     console_log "API Response Data:";;
     ret (inr responseData))
    (fun _ =>
       console_warn "Failed to parse API response as JSON. Text:";;
       if negb (Response.ok response) then
         throw_ApiError
           (VStr ("Request failed: " ++ pretty (Response.status response) ++ " "
                  ++ str_or (Response.statusText response) responseText))
           (Some (Response.status response)) VUndefined VUndefined
       else ret (inl responseText)).

(** [{ ...options, headers: { ...defaultHeaders, ...options.headers } }],
    with the url it is sent to. *)
Definition config_of (url : string) (options : RequestInit.t) : Request :=
  mkRequest url (RequestInit.method options)
    (RequestInit.headers options ∪ defaultHeaders)
    (RequestInit.body options).

Definition handleRequest (url : string) (options : RequestInit.t) : M S value :=
  let config := config_of url options in
  console_log "API Request:";;
  try_catch
    (let* response := fetch config in
     console_log "API Response Status:";;
     if (Response.status response =? 204)%N then
       console_log "API Response: 204 No Content";;
       ret (VObj [])
     else
       let* responseText := lift (Response.text response) in
       let* parsed := parse_body response responseText in
       match parsed with
       | inl text => ret (VStr text)
       | inr responseData =>
           let* flag := prop responseData "error" in
           if is_true flag then
             console_error "API Error Data:";;
             let* errorString := prop responseData "errorString" in
             let* details := prop responseData "details" in
             throw_ApiError
               (or_else errorString
                  (VStr ("API Error: " ++ pretty (Response.status response))))
               (Some (Response.status response)) details responseData
           else if negb (Response.ok response) then
             console_error "API Error (Not OK, no error flag):";;
             let* message := prop responseData "message" in
             let* errorString := prop responseData "errorString" in
             let* details := prop responseData "details" in
             throw_ApiError
               (or_else message (or_else errorString
                  (VStr ("Request failed: " ++ pretty (Response.status response)))))
               (Some (Response.status response)) details responseData
           else ret responseData
       end)
    (fun error =>
       console_error "API Fetch/Processing Error:";;
       if exn_isApiError error then throw error
       else
         throw_ApiError
           (VStr (str_or (exn_message error)
                    "An unexpected network or processing error occurred."))
           None (exn_stack error) VUndefined).

Definition getAuthHeaders (token : string) : M S (gmap string string) :=
  if negb (nonempty token) then
    console_warn "Attempted to get Auth Headers without a token.";;
    ret ∅
  else ret {[ "Authorization" := "Bearer " ++ token ]}.


Definition throw_token_required {A : Type} : M S A :=
  throw_ApiError (VStr "Authentication token is required.") (Some 401%N)
    VUndefined VUndefined.

Definition getFavoriteSongs (token : string) : M S value :=
  if negb (nonempty token) then throw_token_required
  else
    let* headers := getAuthHeaders token in
    handleRequest (API_BASE_URL ++ "/patron/favorites")
      (RequestInit.mk None headers None).

Definition addSongToFavorites (token : string) (songId : float) : M S value :=
  if negb (nonempty token) then throw_token_required
  else
    let* headers := getAuthHeaders token in
    handleRequest (API_BASE_URL ++ "/patron/favorites")
      (RequestInit.mk (Some "POST") headers
         (Some (JSON_stringify [("song_id", VNum songId)]))).

Definition removeSongFromFavorites (token : string) (songId : value) : M S value :=
  if negb (nonempty token) then throw_token_required
  else
    let* headers := getAuthHeaders token in
    handleRequest
      (API_BASE_URL ++ "/patron/favorites/" ++ encodeURIComponent (ToString songId))
      (RequestInit.mk (Some "DELETE") headers None).
End Api.

(** The canonical error of the request client: the [error] flag is set,
    [errorString] is there, and the object is marked as an [ApiError]. *)
Definition canonical (e : ApiError.t) : Prop :=
  ApiError.error e = true /\ truthy (ApiError.errorString e) = true /\
  ApiError.isApiError e = true.

(** The validity predicate of the data model, in the words of the spec:
    a profile carries a non-empty unique identifier and an email. *)
Definition valid_profile (profile : value) : bool :=
  match profile with
  | VObj fields => truthy (assoc "id" fields) && truthy (assoc "email" fields)
  | _ => false
  end.



(** No profile can be read from the entry under [USER_KEY], if there is
    one. *)
Definition unreadable `{JSRuntime} (s : MemStorage) : Prop :=
  forall text, items s !! USER_KEY = Some text -> nonempty text = true ->
    profile_of text = None.

(** The coming [n] calls of the storage work. *)
Definition works (n : nat) (s : MemStorage) : Prop :=
  Forall (fun fails => fails = false) (take n (faults s)).

(** ** Worlds and a runtime for the examples *)

Definition world_of (entries : gmap string string) (schedule : list bool)
    : World MemStorage :=
  mkWorld (mkMem entries schedule) [] initial_auth [] [].

(** The double quote. *)
Definition dq : string := String (Ascii.ascii_of_nat 34) "".

Definition quoted (s : string) : string := dq ++ s ++ dq.

(** The text of an object whose properties are given as texts. *)
Definition object_text (props : list (string * string)) : string :=
  "{" ++ String.concat "," (map (fun p => quoted (fst p) ++ ":" ++ snd p) props) ++ "}".

Fixpoint value_eqb (a b : value) {struct a} : bool :=
  match a, b with
  | VUndefined, VUndefined | VNull, VNull => true
  | VBool x, VBool y => Bool.eqb x y
  | VNum x, VNum y => PrimFloat.eqb x y
  | VStr x, VStr y => String.eqb x y
  | VArr xs, VArr ys =>
      (fix all2 (xs ys : list value) : bool :=
         match xs, ys with
         | [], [] => true
         | x :: xs', y :: ys' => value_eqb x y && all2 xs' ys'
         | _, _ => false
         end) xs ys
  | VObj xs, VObj ys =>
      (fix all2 (xs ys : list (string * value)) : bool :=
         match xs, ys with
         | [], [] => true
         | (k, x) :: xs', (k', y) :: ys' =>
             String.eqb k k' && value_eqb x y && all2 xs' ys'
         | _, _ => false
         end) xs ys
  | _, _ => false
  end.

Definition ann : User.t := User.mk 1 1 "Ann" "Lee" "a@b.com" None.

(** A patron whose backend identifier is 0. *)
Definition zoe : User.t := User.mk 1 0 "Zoe" "Ray" "z@b.com" None.

Definition user_text (u : User.t) (id patronId : string) : string :=
  object_text
    [("id", id); ("patronId", patronId);
     ("first_name", quoted (User.first_name u));
     ("last_name", quoted (User.last_name u));
     ("email", quoted (User.email u))].

Definition ann_text : string := user_text ann "1" "1".
Definition zoe_text : string := user_text zoe "1" "0".

(** A profile entry with an email and nothing else. *)
Definition email_only : value := VObj [("email", VStr "a@b.com")].
Definition email_only_text : string := object_text [("email", quoted "a@b.com")].

(** A profile entry with no email. *)
Definition id_only : value := VObj [("id", VNum 7)].
Definition id_only_text : string := object_text [("id", "7")].

(** The error envelope of the backend. *)
Definition taken : value :=
  VObj [("error", VBool true); ("errorString", VStr "Email already registered");
        ("details", VArr [VStr "email"])].
Definition taken_text : string :=
  object_text [("error", "true"); ("errorString", quoted "Email already registered");
               ("details", "[" ++ quoted "email" ++ "]")].

Definition syntax_error : NativeError :=
  mkNativeError "Unexpected token in JSON" None.

Definition type_error : NativeError :=
  mkNativeError "Cannot convert object to primitive value"
    (Some "TypeError: Cannot convert object to primitive value at createApiError").

(** [JSON.parse] on the texts above; every other text is refused, as the
    empty text and a plain word are. *)
Definition parse_sample (s : string) : NativeError + value :=
  if String.eqb s ann_text then inr (User.to_value ann)
  else if String.eqb s zoe_text then inr (User.to_value zoe)
  else if String.eqb s email_only_text then inr email_only
  else if String.eqb s id_only_text then inr id_only
  else if String.eqb s taken_text then inr taken
  else inl syntax_error.

(** [JSON.stringify] on the two users. *)
Definition stringify_sample (fields : list (string * value)) : string :=
  if value_eqb (VObj fields) (User.to_value ann) then ann_text
  else if value_eqb (VObj fields) (User.to_value zoe) then zoe_text
  else "{}".

(** [String(v)] where it does not depend on number formatting. *)
Definition to_string_sample (v : value) : string :=
  match v with
  | VStr s => s
  | VUndefined => "undefined"
  | VNull => "null"
  | VBool true => "true"
  | VBool false => "false"
  | VObj _ => "[object Object]"
  | VNum _ | VArr _ => ""
  end.

Definition sample_runtime : JSRuntime := {|
  JSON_parse := parse_sample;
  JSON_stringify := stringify_sample;
  ToString := to_string_sample;
  conversion_error := type_error;
  encodeURIComponent := fun s => s;
  VITE_API_HOST := None;
  VITE_API_PORT := None;
  JSON_parse_empty := ex_intro _ syntax_error eq_refl;
|}.

(** A network that answers every request with the same response. *)
Definition answers (status : N) (statusText body : string) : Request -> FetchOutcome :=
  fun _ => Responded (Response.mk status statusText (inr body)).

(** ** The other endpoints of [src/utils/api.ts] *)

Section Endpoints.
Context {S : Type} `{JSRuntime}.
Variable network : Request -> FetchOutcome.

(** [const { id, patronId, ...dataToSend } = userData]. *)
Definition without_ids (userData : list (string * value)) : list (string * value) :=
  List.filter
    (fun p => negb (String.eqb (fst p) "id") && negb (String.eqb (fst p) "patronId"))
    userData.

Definition registerUser (userData : list (string * value)) : M S value :=
  let dataToSend := without_ids userData in
  handleRequest network (API_BASE_URL ++ "/patron/auth/register")
    (RequestInit.mk (Some "POST") ∅ (Some (JSON_stringify dataToSend))).




Definition getHealth : M S value :=
  handleRequest network (API_BASE_URL ++ "/health")
    (RequestInit.mk None {[ "Accept" := "application/json, text/plain, */*" ]} None).
End Endpoints.



(** [d.k] for a [d] that is neither [null] nor [undefined]. *)
Definition field (d : value) (k : string) : value :=
  match d with
  | VObj fields => assoc k fields
  | _ => VUndefined
  end.

(** [d] is [null] or [undefined]. *)
Definition nullish (d : value) : bool :=
  match d with
  | VUndefined | VNull => true
  | _ => false
  end.

(** [err.errorString] of a caught value, as a component reads it. *)
Definition exn_errorString (e : Exn) : value :=
  match e with
  | EApi a => ApiError.errorString a
  | ENative _ => VUndefined
  end.

(** [err.errorString || err.message || fallback]. *)
Definition error_text (err : Exn) (fallback : string) : value :=
  or_else (exn_errorString err) (or_else (VStr (exn_message err)) (VStr fallback)).

(** ** [src/App.tsx]: the routes that look at the session *)

(** What a route element renders to. *)
Inductive Element : Type :=
  | Placeholder (text : string)
  | Navigate (to : string) (from : option string) (replace : bool)
  | Outlet.

(** [ProtectedRoute] as [App] mounts it (without children), given what
    [useAuth()] and [useLocation()] return. *)
Definition ProtectedRoute {S} (a : AuthState.t) (location : string) : M S Element :=
  if AuthState.isLoading a then ret (Placeholder "Checking authentication...")
  else if negb (isAuthenticated a) then
    console_log "ProtectedRoute: Not authenticated, redirecting to login.";;
    ret (Navigate "/login" (Some location) true)
  else ret Outlet.

(** The element of the route [/]. *)
Definition default_route (a : AuthState.t) : Element :=
  if AuthState.isLoading a then Placeholder "Loading..."
  else if isAuthenticated a then Navigate "/favorites" None true
  else Navigate "/request" None true.

(** ** Components: their own [useState] beside the page *)

(** A handler of a component runs in a world whose first field pairs the
    storage with the state of the component. *)
Definition local {S St : Type} (w : World (S * St)) : St := snd (storage w).

Definition set_local {S St : Type} (f : St -> St) : M (S * St) unit :=
  modify (fun w => set_storage (fst (storage w), f (snd (storage w))) w).

(** The page with a component in state [st] mounted on it. *)
Definition mount {S St : Type} (st : St) (w : World S) : World (S * St) :=
  mkWorld (storage w, st) (console w) (auth w) (history w) (issued w).

(** [Array.isArray(v) ? v : []]. *)
Definition array_or_empty (v : value) : value :=
  match v with
  | VArr _ => v
  | _ => VArr []
  end.

(** [token] of [useAuth()] where the code has checked it. *)
Definition the_token (token : option string) : string := default "" token.

(** *** [src/components/MyFavorites.tsx] *)

Module Favorites.
Record t : Type := mk {
  favoriteSongs : value;
  loading : bool;
  error : option value;
}.
Definition initial : t := mk (VArr []) false None.
End Favorites.

Section MyFavorites.
Context {S : Type} `{JSRuntime}.
Variable network : Request -> FetchOutcome.

Definition setFavoriteSongs (v : value) : M (S * Favorites.t) unit :=
  set_local (fun st => Favorites.mk v (Favorites.loading st) (Favorites.error st)).

Definition Favorites_setLoading (b : bool) : M (S * Favorites.t) unit :=
  set_local (fun st => Favorites.mk (Favorites.favoriteSongs st) b (Favorites.error st)).

Definition Favorites_setError (e : option value) : M (S * Favorites.t) unit :=
  set_local (fun st => Favorites.mk (Favorites.favoriteSongs st) (Favorites.loading st) e).

Definition fetchFavorites (token : option string) : M (S * Favorites.t) unit :=
  if negb (truthy_token token) then
    Favorites_setError (Some (VStr "Authentication token not found. Please log in."));;
    Favorites_setLoading false;;
    setFavoriteSongs (VArr [])
  else
    console_log "Fetching favorite songs...";;
    Favorites_setLoading true;;
    Favorites_setError None;;
    try_finally
      (try_catch
         (let* response := getFavoriteSongs network (the_token token) in
          let* favorites := prop response "favorites" in
          setFavoriteSongs (array_or_empty favorites);;
          console_log "Fetched favorites.")  (* the template, without the count *)
         (fun err =>
            console_error "Error fetching favorites:";;
            Favorites_setError (Some (error_text err "Failed to load favorite songs."));;
            setFavoriteSongs (VArr [])))
      (Favorites_setLoading false).

(** The effect on [isAuthenticated], [isAuthLoading] and [fetchFavorites]. *)
Definition Favorites_effect (a : AuthState.t) : M (S * Favorites.t) unit :=
  if isAuthenticated a && negb (AuthState.isLoading a) then
    fetchFavorites (AuthState.token a)
  else if negb (isAuthenticated a) && negb (AuthState.isLoading a) then
    Favorites_setError (Some (VStr "You must be logged in to view your favorites."));;
    setFavoriteSongs (VArr []);;
    Favorites_setLoading false
  else ret tt.
End MyFavorites.

(** *** [SongListItem] of [src/components/SongList.tsx] *)

Module FavoriteButton.
Record t : Type := mk {
  loadingFavorite : bool;
  errorFavorite : option value;
}.
Definition initial : t := mk false None.
End FavoriteButton.

Section SongListItem.
Context {S : Type} `{JSRuntime}.
Variable network : Request -> FetchOutcome.

Definition setLoadingFavorite (b : bool) : M (S * FavoriteButton.t) unit :=
  set_local (fun st => FavoriteButton.mk b (FavoriteButton.errorFavorite st)).

Definition setErrorFavorite (e : option value) : M (S * FavoriteButton.t) unit :=
  set_local (fun st => FavoriteButton.mk (FavoriteButton.loadingFavorite st) e).

(** [onFavoritesChange?.()]. *)
Definition call_optional (callback : option (M (S * FavoriteButton.t) unit))
    : M (S * FavoriteButton.t) unit :=
  match callback with
  | Some f => f
  | None => ret tt
  end.

(** The click handler, with what its render closed over: the session
    [a] of [useAuth()], the props, and [loadingFavorite]. *)
Definition handleToggleFavorite (a : AuthState.t) (isFavoriteList : bool)
    (song_id : float) (onFavoritesChange : option (M (S * FavoriteButton.t) unit))
    (loadingFavorite : bool) : M (S * FavoriteButton.t) unit :=
  if negb (isAuthenticated a) || negb (truthy_token (AuthState.token a)) then
    setErrorFavorite (Some (VStr "Please log in to manage favorites."))
  else if loadingFavorite then ret tt
  else
    setLoadingFavorite true;;
    setErrorFavorite None;;
    try_finally
      (try_catch
         (if isFavoriteList then
            removeSongFromFavorites network (the_token (AuthState.token a)) (VNum song_id);;
            call_optional onFavoritesChange
          else
            addSongToFavorites network (the_token (AuthState.token a)) song_id;;
            call_optional onFavoritesChange)
         (fun err =>
            console_error "Error toggling favorite:";;
            setErrorFavorite (Some (error_text err "Failed to update favorite status."))))
      (setLoadingFavorite false).
End SongListItem.

(** *** [src/components/HealthCheck.tsx] *)

Module Health.
Record t : Type := mk {
  status : option value;
  uptime : option value;
  loading : bool;
  error : option value;
}.
Definition initial : t := mk None None true None.
End Health.

(** [v === null]. *)
Definition is_null (v : value) : bool :=
  match v with
  | VNull => true
  | _ => false
  end.

(** ['status' in response] for an object or an array. *)
Definition has_key (k : string) (v : value) : bool :=
  match v with
  | VObj fields => existsb (fun p => String.eqb (fst p) k) fields
  | _ => false
  end.

Section HealthCheck.
Context {S : Type} `{JSRuntime}.
Variable network : Request -> FetchOutcome.

Definition Health_setStatus (v : option value) : M (S * Health.t) unit :=
  set_local (fun st => Health.mk v (Health.uptime st) (Health.loading st) (Health.error st)).

Definition Health_setUptime (v : option value) : M (S * Health.t) unit :=
  set_local (fun st => Health.mk (Health.status st) v (Health.loading st) (Health.error st)).

Definition Health_setLoading (b : bool) : M (S * Health.t) unit :=
  set_local (fun st => Health.mk (Health.status st) (Health.uptime st) b (Health.error st)).

Definition Health_setError (e : option value) : M (S * Health.t) unit :=
  set_local (fun st => Health.mk (Health.status st) (Health.uptime st) (Health.loading st) e).

Definition checkHealth : M (S * Health.t) unit :=
  Health_setLoading true;;
  Health_setError None;;
  Health_setStatus None;;
  Health_setUptime None;;
  try_finally
    (try_catch
       (let* response := getHealth network in
        if String.eqb (typeof response) "string" then
          Health_setStatus (Some response);;
          Health_setUptime (Some (VStr "N/A"))
        else if String.eqb (typeof response) "object" && negb (is_null response)
                && has_key "status" response then
          let* status := prop response "status" in
          Health_setStatus (Some (or_else status (VStr "Unknown")));;
          let* uptime := prop response "uptime" in
          Health_setUptime (Some (or_else uptime (VStr "N/A")))
        else
          Health_setStatus (Some (VStr "Unexpected Response Format"));;
          Health_setUptime (Some (VStr "N/A"));;
          console_warn "Unexpected health check response format:")
       (fun err =>
          console_error "Health Check Error:";;
          Health_setError (Some (error_text err "Failed to connect to API."));;
          Health_setStatus (Some (VStr "Error"));;
          Health_setUptime (Some (VStr "N/A"))))
    (Health_setLoading false).
End HealthCheck.

(** What [handleRequest] does to the world: one request goes out, lines
    are added to the console, and nothing else changes. *)
Definition request_frame {S : Type} (request : Request) (w w' : World S) : Prop :=
  storage w' = storage w /\ auth w' = auth w /\ history w' = history w /\
  issued w' = (issued w ++ [request])%list /\
  exists lines, console w' = (console w ++ lines)%list.

(** The session store leaves the router and the network alone, and the
    provider's state too. *)
Definition store_frame {S : Type} (w w' : World S) : Prop :=
  auth w' = auth w /\ history w' = history w /\ issued w' = issued w.

(** [sample_runtime] with the text of [null] added to what it parses. *)
Definition null_runtime : JSRuntime := {|
  JSON_parse := fun s => if String.eqb s "null" then inr VNull else parse_sample s;
  JSON_stringify := stringify_sample;
  ToString := to_string_sample;
  conversion_error := type_error;
  encodeURIComponent := fun s => s;
  VITE_API_HOST := None;
  VITE_API_PORT := None;
  JSON_parse_empty := ex_intro _ syntax_error eq_refl;
|}.



(** From [w] to [w'] entries were at most removed from the storage, and
    neither the router nor the network was used. *)
Definition only_removes (w w' : World MemStorage) : Prop :=
  items (storage w') ⊆ items (storage w) /\
  history w' = history w /\ issued w' = issued w.

(** ** Sanity checks of the embedding *)

Example ann_text_parses :
  @JSON_parse sample_runtime (@JSON_stringify sample_runtime (User.fields ann))
  = inr (User.to_value ann).
Proof. vm_compute. reflexivity. Qed.

Example login_then_reload_ann :
  let w := after (@initialize _ _ sample_runtime)
             (reload (after (@login _ _ sample_runtime "abc" ann) (world_of ∅ []))) in
  status_of (auth w) = Authenticated.
Proof. vm_compute. reflexivity. Qed.

Example health_check_plain_text :
  result (@handleRequest MemStorage sample_runtime (answers 200 "OK" "OK")
            "http://localhost:3000/api/health" RequestInit.empty) (world_of ∅ [])
  = Normal (VStr "OK").
Proof. vm_compute. reflexivity. Qed.

Example status_is_printed_in_decimal : pretty 404%N = "404".
Proof. vm_compute. reflexivity. Qed.

(** ** Reasoning about computations *)

Ltac run_step :=
  unfold throw_token_required, throw_ApiError, createApiError,
    console_log, console_warn, console_error, console_write,
    localStorage_getItem, localStorage_setItem, localStorage_removeItem,
    storage_call, setTokenState, setUserState, setIsLoading, navigate,
    prop, lift, try_catch, try_finally, bind, ret, throw, modify in *.

Ltac run := run_step; simpl in *.

(** Case analysis on the next storage call of the goal. *)
Ltac storage_cases :=
  match goal with
  | |- context [getItem ?k ?s] =>
      let r := fresh "r" in let s' := fresh "s" in
      destruct (getItem k s) as [[r | r] s'] eqn:?; simpl
  | |- context [setItem ?k ?v ?s] =>
      let r := fresh "r" in let s' := fresh "s" in
      destruct (setItem k v s) as [[r | r] s'] eqn:?; simpl
  | |- context [removeItem ?k ?s] =>
      let r := fresh "r" in let s' := fresh "s" in
      destruct (removeItem k s) as [[r | r] s'] eqn:?; simpl
  end.

Lemma nonempty_app_l (a b : string) : nonempty a = true -> nonempty (a ++ b) = true.
Proof. destruct a; unfold nonempty; simpl; [discriminate | reflexivity]. Qed.

Lemma nonempty_str_or (s d : string) : nonempty d = true -> nonempty (str_or s d) = true.
Proof. intros Hd. unfold str_or. destruct (nonempty s) eqn:Hs; assumption. Qed.

Lemma truthy_or_else (a b : value) : truthy b = true -> truthy (or_else a b) = true.
Proof. intros Hb. unfold or_else. destruct (truthy a) eqn:Ha; assumption. Qed.

Lemma nonempty_false (s : string) : nonempty s = false <-> s = "".
Proof. destruct s; unfold nonempty; simpl; split; congruence. Qed.

(** ** The storage adapter *)

Section AdapterFacts.
Context {S : Type} `{LocalStorage S} `{JSRuntime}.

Lemma setAuthToken_run (token : string) (w : World S) :
  setAuthToken token w =
  match setItem TOKEN_KEY token (storage w) with
  | (inr _, s') => (Normal tt, say LLog "Auth Token stored in localStorage." (set_storage s' w))
  | (inl _, s') =>
      (Normal tt, say LError "Error storing auth token in localStorage:" (set_storage s' w))
  end.
Proof.
  unfold setAuthToken. run. storage_cases; [reflexivity | destruct r; reflexivity].
Qed.

Lemma getAuthToken_run (w : World S) :
  getAuthToken w =
  match getItem TOKEN_KEY (storage w) with
  | (inr r, s') => (Normal r, set_storage s' w)
  | (inl _, s') =>
      (Normal None, say LError "Error retrieving auth token from localStorage:" (set_storage s' w))
  end.
Proof. unfold getAuthToken. run. storage_cases; reflexivity. Qed.

Lemma removeAuthToken_run (w : World S) :
  removeAuthToken w =
  match removeItem TOKEN_KEY (storage w) with
  | (inr _, s') => (Normal tt, say LLog "Auth Token removed from localStorage." (set_storage s' w))
  | (inl _, s') =>
      (Normal tt, say LError "Error removing auth token from localStorage:" (set_storage s' w))
  end.
Proof.
  unfold removeAuthToken. run. storage_cases; [reflexivity | destruct r; reflexivity].
Qed.

Lemma setUserInStorage_run (user : User.t) (w : World S) :
  setUserInStorage user w =
  match setItem USER_KEY (JSON_stringify (User.fields user)) (storage w) with
  | (inr _, s') => (Normal tt, say LLog "User object stored in localStorage." (set_storage s' w))
  | (inl _, s') =>
      (Normal tt, say LError "Error storing user object in localStorage:" (set_storage s' w))
  end.
Proof.
  unfold setUserInStorage. run. storage_cases; [reflexivity | destruct r; reflexivity].
Qed.

Lemma removeUserFromStorage_run (w : World S) :
  removeUserFromStorage w =
  match removeItem USER_KEY (storage w) with
  | (inr _, s') => (Normal tt, say LLog "User object removed from localStorage." (set_storage s' w))
  | (inl _, s') =>
      (Normal tt, say LError "Error removing user object from localStorage:" (set_storage s' w))
  end.
Proof.
  unfold removeUserFromStorage. run. storage_cases; [reflexivity | destruct r; reflexivity].
Qed.

Lemma removeUserFromStorage_pair (w : World S) :
  removeUserFromStorage w = (Normal tt, after removeUserFromStorage w).
Proof.
  unfold after. rewrite removeUserFromStorage_run. storage_cases; reflexivity.
Qed.

Lemma basic_check_run (user : value) (w : World S) :
  basic_check user w = (Normal (accepted user), w).
Proof.
  unfold basic_check, accepted. destruct user; simpl; try reflexivity.
  - destruct b; reflexivity.
  - destruct (negb _); reflexivity.
  - destruct (nonempty s); reflexivity.
Qed.

Lemma getUserFromStorage_run (w : World S) :
  getUserFromStorage w =
  match getItem USER_KEY (storage w) with
  | (inr (Some text), s') =>
      if nonempty text then
        match JSON_parse text with
        | inr user =>
            if accepted user then
              (Normal (Some user),
               say LLog "User object retrieved from localStorage:" (set_storage s' w))
            else
              (Normal None,
               after removeUserFromStorage
                 (say LWarn "Invalid user object found in localStorage. Removing."
                    (set_storage s' w)))
        | inl _ =>
            (Normal None,
             after removeUserFromStorage
               (say LError "Error retrieving or parsing user object from localStorage:"
                  (set_storage s' w)))
        end
      else (Normal None, set_storage s' w)
  | (inr None, s') => (Normal None, set_storage s' w)
  | (inl _, s') =>
      (Normal None,
       after removeUserFromStorage
         (say LError "Error retrieving or parsing user object from localStorage:"
            (set_storage s' w)))
  end.
Proof.
  unfold getUserFromStorage. run. storage_cases.
  - rewrite removeUserFromStorage_pair. reflexivity.
  - destruct r as [text |]; [| reflexivity].
    destruct (nonempty text); [| reflexivity].
    destruct (JSON_parse text) as [e | user]; simpl.
    + rewrite removeUserFromStorage_pair. reflexivity.
    + rewrite basic_check_run. destruct (accepted user); [reflexivity |].
      rewrite removeUserFromStorage_pair. reflexivity.
Qed.

Lemma getUserFromStorage_returns (w : World S) :
  exists r w', getUserFromStorage w = (Normal r, w').
Proof.
  rewrite getUserFromStorage_run. storage_cases; eauto.
  destruct r as [text |]; eauto.
  destruct (nonempty text); eauto.
  destruct (JSON_parse text) as [e | user]; eauto.
  destruct (accepted user); eauto.
Qed.
End AdapterFacts.

(** C9. Whatever [localStorage] does, throwing included, the six
    operations of the session store return to their caller. When the
    underlying call throws, a read gives [null], and a write or a removal
    does nothing more than log the error: the storage is left as the
    failed call left it. *)
Theorem storage_adapter_never_throws
    {S : Type} (LS : LocalStorage S) (R : JSRuntime)
    (w : World S) (token : string) (user : User.t) :
  ((exists w', setAuthToken token w = (Normal tt, w')) /\
   (exists r w', getAuthToken w = (Normal r, w')) /\
   (exists w', removeAuthToken w = (Normal tt, w')) /\
   (exists w', setUserInStorage user w = (Normal tt, w')) /\
   (exists r w', getUserFromStorage w = (Normal r, w')) /\
   (exists w', removeUserFromStorage w = (Normal tt, w'))) /\
  ((forall e s', getItem TOKEN_KEY (storage w) = (inl e, s') ->
      result getAuthToken w = Normal None) /\
   (forall e s', getItem USER_KEY (storage w) = (inl e, s') ->
      result getUserFromStorage w = Normal None)) /\
  ((forall e s', setItem TOKEN_KEY token (storage w) = (inl e, s') ->
      after (setAuthToken token) w
      = say LError "Error storing auth token in localStorage:" (set_storage s' w)) /\
   (forall e s', removeItem TOKEN_KEY (storage w) = (inl e, s') ->
      after removeAuthToken w
      = say LError "Error removing auth token from localStorage:" (set_storage s' w)) /\
   (forall e s',
      setItem USER_KEY (JSON_stringify (User.fields user)) (storage w) = (inl e, s') ->
      after (setUserInStorage user) w
      = say LError "Error storing user object in localStorage:" (set_storage s' w)) /\
   (forall e s', removeItem USER_KEY (storage w) = (inl e, s') ->
      after removeUserFromStorage w
      = say LError "Error removing user object from localStorage:" (set_storage s' w))).
Proof.
  split; [| split].
  - repeat split.
    + rewrite setAuthToken_run. storage_cases; eauto.
    + rewrite getAuthToken_run. storage_cases; eauto.
    + rewrite removeAuthToken_run. storage_cases; eauto.
    + rewrite setUserInStorage_run. storage_cases; eauto.
    + apply getUserFromStorage_returns.
    + rewrite removeUserFromStorage_run. storage_cases; eauto.
  - split; intros e s' Hcall; unfold result.
    + rewrite getAuthToken_run, Hcall. reflexivity.
    + rewrite getUserFromStorage_run, Hcall. reflexivity.
  - repeat split; intros e s' Hcall; unfold after.
    + rewrite setAuthToken_run, Hcall. reflexivity.
    + rewrite removeAuthToken_run, Hcall. reflexivity.
    + rewrite setUserInStorage_run, Hcall. reflexivity.
    + rewrite removeUserFromStorage_run, Hcall. reflexivity.
Qed.

(** A storage that refuses every call: each operation returns all the same. *)
Example adapter_on_failing_storage :
  let w := world_of ∅ [true; true; true] in
  result (@getAuthToken _ _) w = Normal None /\
  result (@getUserFromStorage _ _ sample_runtime) w = Normal None /\
  result (@setAuthToken _ _ "abc") w = Normal tt /\
  items (storage (after (@setAuthToken _ _ "abc") w)) = ∅.
Proof. vm_compute. repeat split; reflexivity. Qed.

(** ** The request client *)

Lemma api_error_canonical `{JSRuntime} (message : value) status details responseData :
  truthy message = true ->
  canonical (api_error message status details responseData).
Proof. intros Hm. repeat split; assumption. Qed.

Ltac truthy_message :=
  repeat first
    [ apply truthy_or_else
    | apply nonempty_str_or
    | progress (unfold truthy, nonempty; simpl)
    | reflexivity ].

Ltac settled :=
  first
    [ left; eexists; reflexivity
    | right; eexists; split;
      [ reflexivity | apply api_error_canonical; truthy_message ] ].

(** C2. Whatever the network does (no response at all, or a response of
    any status with any body, readable or not, JSON or not), a request
    settles in exactly one of two ways: it resolves with a payload, or it
    rejects with an [ApiError] whose [error] flag is set and whose
    [errorString] is there. No other error leaves [handleRequest]. *)
Theorem handleRequest_payload_or_api_error
    {S : Type} (R : JSRuntime) (network : Request -> FetchOutcome)
    (url : string) (options : RequestInit.t) (w : World S) :
  (exists payload, result (handleRequest network url options) w = Normal payload) \/
  (exists e, result (handleRequest network url options) w = Throw (EApi e) /\ canonical e).
Proof.
  unfold result, handleRequest, fetch, parse_body. run.
  destruct (network _) as [e | response]; simpl; [settled |].
  destruct (Response.status response =? 204)%N; simpl; [settled |].
  destruct (Response.text response) as [e | responseText]; simpl; [settled |].
  destruct (JSON_parse responseText) as [e | responseData]; simpl.
  - destruct (Response.ok response); simpl; settled.
  - destruct responseData as [| | b | n | s | items | fields]; simpl;
      try (destruct (Response.ok response); simpl; settled).
    destruct (is_true (assoc "error" fields)); simpl;
      [destruct (cannot_convert _); simpl; settled |].
    destruct (Response.ok response); simpl;
      [settled | destruct (cannot_convert _); simpl; settled].
Qed.

(** Corners of the table of outcomes: no response at all, a server error
    with an empty body, a JSON body that is [null]. *)
Example request_outcomes :
  let request network :=
    result (@handleRequest MemStorage sample_runtime network "/api/songs/search"
              RequestInit.empty) (world_of ∅ []) in
  request (fun _ => NetworkFailure (mkNativeError "Failed to fetch" None))
  = Throw (EApi (ApiError.mk "Failed to fetch" true (VStr "Failed to fetch") None
      VUndefined true VUndefined)) /\
  request (answers 500 "" "")
  = Throw (EApi (ApiError.mk "Request failed: 500 " true (VStr "Request failed: 500 ")
      (Some 500%N) VUndefined true VUndefined)) /\
  request (answers 400 "Bad Request" taken_text)
  = Throw (EApi (ApiError.mk "Email already registered" true
      (VStr "Email already registered") (Some 400%N) (VArr [VStr "email"]) true taken)) /\
  request (answers 200 "OK" ann_text) = Normal (User.to_value ann).
Proof. vm_compute. repeat split; reflexivity. Qed.


(** X1. A response of status 204 resolves with the empty object, whatever
    its body and whatever the headers of the request. *)
Lemma no_content_short_circuit
    {S : Type} (R : JSRuntime) (network : Request -> FetchOutcome)
    (url : string) (options : RequestInit.t) (w : World S) (response : Response.t) :
  network (config_of url options) = Responded response ->
  Response.status response = 204%N ->
  result (handleRequest network url options) w = Normal (VObj []).
Proof.
  intros Hnet Hstatus. unfold result, handleRequest, fetch. run.
  rewrite Hnet, Hstatus. reflexivity.
Qed.




(** C6, amended. For every response whose body does not parse: under a
    status outside 200-299 the request rejects with the [ApiError] whose
    message is "Request failed: <status> " followed by the status text
    (or, when that is empty, the body text), with no details and no body
    attached; under a status in 200-299 other than 204 it resolves with
    the text itself; under 204 it resolves with the empty object. *)
Theorem unparsable_body
    {S : Type} (R : JSRuntime) (network : Request -> FetchOutcome)
    (url : string) (options : RequestInit.t) (w : World S)
    (response : Response.t) (responseText : string) (e : NativeError) :
  network (config_of url options) = Responded response ->
  Response.text response = inr responseText ->
  JSON_parse responseText = inl e ->
  result (handleRequest network url options) w
  = if (Response.status response =? 204)%N then Normal (VObj [])
    else if Response.ok response then Normal (VStr responseText)
    else Throw (EApi (api_error
           (VStr ("Request failed: " ++ pretty (Response.status response) ++ " "
                  ++ str_or (Response.statusText response) responseText))
           (Some (Response.status response)) VUndefined VUndefined)).
Proof.
  intros Hnet Htext Hparse.
  unfold result, handleRequest, fetch, parse_body. run.
  rewrite Hnet. simpl.
  destruct (Response.status response =? 204)%N; [reflexivity |].
  rewrite Htext. simpl. rewrite Hparse. simpl.
  destruct (Response.ok response); reflexivity.
Qed.

Lemma unparsable_body_witness :
  result (@handleRequest MemStorage sample_runtime
            (answers 502 "Bad Gateway" "<html>") "/api/songs/search" RequestInit.empty)
    (world_of ∅ [])
  = Throw (EApi (ApiError.mk "Request failed: 502 Bad Gateway" true
      (VStr "Request failed: 502 Bad Gateway") (Some 502%N) VUndefined true VUndefined)) /\
  result (@handleRequest MemStorage sample_runtime
            (answers 200 "OK" "OK") "/api/health" RequestInit.empty)
    (world_of ∅ [])
  = Normal (VStr "OK").
Proof.
  split.
  - apply (@unparsable_body MemStorage sample_runtime
             (answers 502 "Bad Gateway" "<html>") "/api/songs/search" RequestInit.empty
             (world_of ∅ []) (Response.mk 502 "Bad Gateway" (inr "<html>")) "<html>"
             syntax_error); reflexivity.
  - apply (@unparsable_body MemStorage sample_runtime
             (answers 200 "OK" "OK") "/api/health" RequestInit.empty
             (world_of ∅ []) (Response.mk 200 "OK" (inr "OK")) "OK"
             syntax_error); reflexivity.
Defined.

(** C6 as stated fails at status 204: the empty body does not parse, the
    status is a success, and the payload is the empty object, not the
    text. *)
Lemma unparsable_body_under_204 :
  @JSON_parse sample_runtime "" = inl syntax_error /\
  Response.ok (Response.mk 204 "No Content" (inr "")) = true /\
  result (@handleRequest MemStorage sample_runtime
            (answers 204 "No Content" "") "/api/patron/favorites/7"
            (RequestInit.mk (Some "DELETE") ∅ None))
    (world_of ∅ [])
  = Normal (VObj []) /\
  Normal (VObj []) <> Normal (VStr "").
Proof. repeat split; try (vm_compute; reflexivity). discriminate. Qed.

Lemma bearer_header_sent (token : string) :
  ({[ "Authorization" := "Bearer " ++ token ]} ∪ defaultHeaders : gmap string string)
    !! "Authorization"
  = Some ("Bearer " ++ token).
Proof. apply lookup_union_Some_l, lookup_singleton_eq. Qed.




(** ** The session store *)

(** C4 as stated fails: the stored profile has an email and no identifier,
    and [getUserFromStorage] returns it. *)
Lemma profile_without_id_is_returned :
  let w := world_of {[ USER_KEY := email_only_text ]} [] in
  result (@getUserFromStorage _ _ sample_runtime) w = Normal (Some email_only) /\
  getProp email_only "id" = inr VUndefined /\
  valid_profile email_only = false.
Proof. vm_compute. repeat split; reflexivity. Qed.

(** C4, amended. [getUserFromStorage] never returns a profile without an
    email: whatever it returns is an object with a truthy [email] (the
    identifier is not looked at). A stored, non-empty entry that does not
    parse, or parses to anything else, gives [null], and the removal of
    the entry is the last thing the read does. *)
Theorem getUserFromStorage_checks_email
    {S : Type} (LS : LocalStorage S) (R : JSRuntime) (w : World S) :
  (forall user, result getUserFromStorage w = Normal (Some user) ->
     exists fields, user = VObj fields /\ truthy (assoc "email" fields) = true) /\
  (forall text s', getItem USER_KEY (storage w) = (inr (Some text), s') ->
     nonempty text = true -> profile_of text = None ->
     result getUserFromStorage w = Normal None /\
     exists level line,
       after getUserFromStorage w
       = after removeUserFromStorage (say level line (set_storage s' w))).
Proof.
  split.
  - intros user. unfold result. rewrite getUserFromStorage_run.
    storage_cases; [discriminate |].
    destruct r as [text |]; [| discriminate].
    destruct (nonempty text); [| discriminate].
    destruct (JSON_parse text) as [e | parsed]; [discriminate |].
    destruct (accepted parsed) eqn:Hacc; [| discriminate].
    simpl. intros [= <-]. destruct parsed; try discriminate. eauto.
  - intros text s' Hget Htext Hnone. unfold result, after at 1.
    rewrite getUserFromStorage_run, Hget, Htext. unfold profile_of in Hnone.
    destruct (JSON_parse text) as [e | parsed]; [simpl; eauto |].
    destruct (accepted parsed); [discriminate | simpl; eauto].
Qed.

Lemma getUserFromStorage_checks_email_witness :
  (exists fields,
     User.to_value ann = VObj fields /\ truthy (assoc "email" fields) = true) /\
  result (@getUserFromStorage _ _ sample_runtime)
    (world_of {[ USER_KEY := id_only_text ]} []) = Normal None.
Proof.
  split.
  - apply (proj1 (getUserFromStorage_checks_email MemStorage_localStorage sample_runtime
                    (world_of {[ USER_KEY := ann_text ]} []))).
    vm_compute. reflexivity.
  - apply (proj2 (getUserFromStorage_checks_email MemStorage_localStorage sample_runtime
                    (world_of {[ USER_KEY := id_only_text ]} []))
             id_only_text (mkMem {[ USER_KEY := id_only_text ]} [])).
    + vm_compute. reflexivity.
    + reflexivity.
    + vm_compute. reflexivity.
Defined.

Ltac mem_call :=
  unfold getItem, setItem, removeItem, MemStorage_localStorage, next_call; simpl.

Ltac cleanup := unfold after; rewrite ?removeUserFromStorage_run; mem_call.

Ltac entry_gone :=
  let t := fresh "t" in intros t; rewrite lookup_delete_eq; discriminate.

Lemma unreadable_read (R : JSRuntime) (w : World MemStorage) :
  unreadable (storage w) ->
  result getUserFromStorage w = Normal None /\
  unreadable (storage (after getUserFromStorage w)).
Proof.
  intros Hbad. unfold result, after. rewrite getUserFromStorage_run.
  destruct w as [[entries schedule] out a h i]. unfold unreadable in *. simpl in *.
  mem_call.
  assert (Hread :
    match entries !! USER_KEY with
    | Some text =>
        nonempty text = false \/
        (nonempty text = true /\
         match JSON_parse text with
         | inr user => accepted user = false
         | inl _ => True
         end)
    | None => True
    end).
  { destruct (entries !! USER_KEY) as [text |] eqn:Hentry; [| exact I].
    destruct (nonempty text) eqn:Htext; [right | left; reflexivity].
    split; [reflexivity |]. pose proof (Hbad text eq_refl Htext) as Hnone.
    unfold profile_of in Hnone. destruct (JSON_parse text); [exact I |].
    destruct (accepted _); [discriminate | reflexivity]. }
  destruct schedule as [| [|] rest]; simpl.
  2: { cleanup. destruct rest as [| [|] rest']; simpl;
       (split; [reflexivity |]); first [entry_gone | assumption]. }
  all: destruct (entries !! USER_KEY) as [text |] eqn:Hentry; simpl;
      [| split; [reflexivity | rewrite Hentry; assumption]];
    destruct Hread as [Hempty | [Htext Hrej]];
      [ rewrite Hempty; simpl; split; [reflexivity | rewrite Hentry; assumption] |];
    rewrite Htext;
    destruct (JSON_parse text) as [e | parsed]; simpl;
      [| rewrite Hrej; simpl];
    cleanup; try (destruct rest as [| [|] rest']; simpl);
    (split; [reflexivity |]); first [entry_gone | rewrite Hentry; assumption].
Qed.

(** C7 as stated fails: the stored profile is incomplete (it has no
    identifier), and the read neither returns [null] nor removes it. *)
Lemma incomplete_profile_is_kept :
  let w := world_of {[ USER_KEY := email_only_text ]} [] in
  valid_profile email_only = false /\
  result (@getUserFromStorage _ _ sample_runtime) w = Normal (Some email_only) /\
  items (storage (after (@getUserFromStorage _ _ sample_runtime) w)) !! USER_KEY
  = Some email_only_text.
Proof. vm_compute. repeat split; reflexivity. Qed.

(** C7, amended. For every non-empty entry that does not parse, or that
    parses to anything but an object with a truthy [email]: the first
    [getUserFromStorage] returns [null], and so does the second, whether
    the storage works or throws. When the storage works, the first read
    removes the entry, and the second leaves the storage as it found it. *)
Theorem self_healing_read_is_idempotent
    (R : JSRuntime) (w : World MemStorage) (text : string) :
  items (storage w) !! USER_KEY = Some text ->
  nonempty text = true ->
  profile_of text = None ->
  let w1 := after getUserFromStorage w in
  let w2 := after getUserFromStorage w1 in
  result getUserFromStorage w = Normal None /\
  result getUserFromStorage w1 = Normal None /\
  (faults (storage w) = [] ->
   items (storage w1) = delete USER_KEY (items (storage w)) /\
   storage w2 = storage w1).
Proof.
  intros Hentry Htext Hnone w1 w2.
  assert (Hbad : unreadable (storage w)).
  { intros t Ht _. rewrite Hentry in Ht. injection Ht as <-. exact Hnone. }
  destruct (unreadable_read R w Hbad) as [Hfirst Hbad1].
  destruct (unreadable_read R w1 Hbad1) as [Hsecond _].
  split; [exact Hfirst |]. split; [exact Hsecond |].
  intros Hworks. subst w2 w1. unfold after.
  rewrite (getUserFromStorage_run w).
  destruct w as [[entries schedule] out a h i]. simpl in *. subst schedule.
  mem_call. rewrite Hentry, Htext. unfold profile_of in Hnone.
  destruct (JSON_parse text) as [e | parsed]; simpl.
  - cleanup. split; [reflexivity |].
    rewrite getUserFromStorage_run. mem_call. rewrite lookup_delete_eq. reflexivity.
  - destruct (accepted parsed); [discriminate |]. simpl.
    cleanup. split; [reflexivity |].
    rewrite getUserFromStorage_run. mem_call. rewrite lookup_delete_eq. reflexivity.
Qed.

Lemma self_healing_read_is_idempotent_witness :
  let w := world_of {[ USER_KEY := "not json" ]} [] in
  let w1 := after (@getUserFromStorage _ _ sample_runtime) w in
  let w2 := after (@getUserFromStorage _ _ sample_runtime) w1 in
  result (@getUserFromStorage _ _ sample_runtime) w = Normal None /\
  result (@getUserFromStorage _ _ sample_runtime) w1 = Normal None /\
  (faults (storage w) = [] ->
   items (storage w1) = delete USER_KEY (items (storage w)) /\
   storage w2 = storage w1).
Proof.
  apply (self_healing_read_is_idempotent sample_runtime
           (world_of {[ USER_KEY := "not json" ]} []) "not json").
  - reflexivity.
  - reflexivity.
  - reflexivity.
Defined.

(** ** The provider *)

Section ProviderFacts.
Context {S : Type} `{LocalStorage S} `{JSRuntime}.

Lemma getAuthToken_keeps_auth (w : World S) :
  exists r w', getAuthToken w = (Normal r, w') /\ auth w' = auth w.
Proof. rewrite getAuthToken_run. storage_cases; eauto. Qed.

Lemma removeAuthToken_keeps_auth (w : World S) :
  exists w', removeAuthToken w = (Normal tt, w') /\ auth w' = auth w.
Proof. rewrite removeAuthToken_run. storage_cases; eauto. Qed.

Lemma removeUserFromStorage_keeps_auth (w : World S) :
  exists w', removeUserFromStorage w = (Normal tt, w') /\ auth w' = auth w.
Proof. rewrite removeUserFromStorage_run. storage_cases; eauto. Qed.

Lemma setAuthToken_keeps_auth (token : string) (w : World S) :
  exists w', setAuthToken token w = (Normal tt, w') /\ auth w' = auth w.
Proof. rewrite setAuthToken_run. storage_cases; eauto. Qed.

Lemma setUserInStorage_keeps_auth (user : User.t) (w : World S) :
  exists w', setUserInStorage user w = (Normal tt, w') /\ auth w' = auth w.
Proof. rewrite setUserInStorage_run. storage_cases; eauto. Qed.

Lemma getUserFromStorage_keeps_auth (w : World S) :
  exists r w', getUserFromStorage w = (Normal r, w') /\ auth w' = auth w /\
               (forall user, r = Some user -> accepted user = true).
Proof.
  rewrite getUserFromStorage_run.
  assert (Hrm : forall w0 : World S, auth (after removeUserFromStorage w0) = auth w0).
  { intros w0. unfold after.
    destruct (removeUserFromStorage_keeps_auth w0) as (w' & -> & Hw'). exact Hw'. }
  storage_cases.
  - eexists _, _. split; [reflexivity |]. rewrite Hrm. split; [reflexivity | discriminate].
  - destruct r as [text |]; [| eexists _, _; repeat split; discriminate].
    destruct (nonempty text); [| eexists _, _; repeat split; discriminate].
    destruct (JSON_parse text) as [e | user].
    + eexists _, _. split; [reflexivity |]. rewrite Hrm.
      split; [reflexivity | discriminate].
    + destruct (accepted user) eqn:Hacc.
      * eexists _, _. split; [reflexivity |]. split; [reflexivity |].
        intros u [= <-]. exact Hacc.
      * eexists _, _. split; [reflexivity |]. rewrite Hrm.
        split; [reflexivity | discriminate].
Qed.

Lemma expected_properties_run (storedUser : value) (w : World S) :
  truthy storedUser = true ->
  expected_properties storedUser w = (Normal (expected storedUser), w).
Proof.
  intros Htruthy. unfold expected_properties, expected. run.
  destruct storedUser; simpl in *; try discriminate; try reflexivity.
  destruct (truthy (assoc "id" fields)); simpl; [| reflexivity].
  destruct (truthy (assoc "email" fields)); reflexivity.
Qed.

(** What [initialize] leaves in memory: nothing, or the stored token with
    the stored profile, both truthy and the profile as expected. *)
Lemma initialize_auth (w : World S) :
  let a := auth (after initialize w) in
  AuthState.isLoading a = false /\
  ((AuthState.token a = None /\ AuthState.user a = None) \/
   (exists t u, AuthState.token a = Some t /\ AuthState.user a = Some u /\
                nonempty t = true /\ truthy u = true /\ expected u = true)).
Proof.
  unfold after, initialize. run.
  match goal with
  | |- context [getAuthToken ?w0] =>
      destruct (getAuthToken_keeps_auth w0) as (storedToken & w1 & -> & _)
  end.
  destruct (getUserFromStorage_keeps_auth w1) as (storedUser & w2 & -> & _ & _).
  destruct (truthy_token storedToken && truthy_user storedUser) eqn:Hboth; simpl.
  - apply andb_prop in Hboth as [Htoken Huser].
    destruct storedToken as [t |]; [| discriminate].
    destruct storedUser as [u |]; [| discriminate]. simpl in *.
    rewrite expected_properties_run by exact Huser.
    destruct (expected u) eqn:Hexp; simpl.
    + split; [reflexivity |]. right. exists t, u. auto.
    + match goal with
      | |- context [removeAuthToken ?w0] =>
          destruct (removeAuthToken_keeps_auth w0) as (w3 & -> & _)
      end.
      destruct (removeUserFromStorage_keeps_auth w3) as (w4 & -> & _). simpl.
      auto.
  - auto.
Qed.

Lemma login_auth (newToken : string) (loggedInUser : User.t) (w : World S) :
  auth (after (login newToken loggedInUser) w)
  = AuthState.mk (Some newToken) (Some (User.to_value loggedInUser))
      (AuthState.isLoading (auth w)).
Proof.
  unfold after, login. run.
  match goal with
  | |- context [setAuthToken ?t ?w0] =>
      destruct (setAuthToken_keeps_auth t w0) as (w1 & -> & Hw1)
  end.
  destruct (setUserInStorage_keeps_auth loggedInUser w1) as (w2 & -> & Hw2).
  simpl. rewrite Hw2, Hw1. reflexivity.
Qed.

Lemma logout_auth (w : World S) :
  auth (after logout w) = AuthState.mk None None (AuthState.isLoading (auth w)).
Proof.
  unfold after, logout. run.
  match goal with
  | |- context [removeAuthToken ?w0] =>
      destruct (removeAuthToken_keeps_auth w0) as (w1 & -> & Hw1)
  end.
  destruct (removeUserFromStorage_keeps_auth w1) as (w2 & -> & Hw2).
  simpl. rewrite Hw2, Hw1. reflexivity.
Qed.

Lemma transitions_keep_pairing (ts : list Transition) (w : World S) :
  paired (auth w) ->
  paired (auth (after_all ts w)) /\
  AuthState.isLoading (auth (after_all ts w)) = AuthState.isLoading (auth w).
Proof.
  revert w. induction ts as [| t rest IH]; intros w Hw; simpl; [auto |].
  destruct t as [newToken loggedInUser |]; simpl.
  - destruct (IH (after (login newToken loggedInUser) w)) as [Hp Hl].
    + rewrite login_auth. right. eauto.
    + split; [exact Hp |]. rewrite Hl, login_auth. reflexivity.
  - destruct (IH (after logout w)) as [Hp Hl].
    + rewrite logout_auth. left. auto.
    + split; [exact Hp |]. rewrite Hl, logout_auth. reflexivity.
Qed.
End ProviderFacts.

(** C10 as stated fails on the empty token: after [login] token and
    profile are both there, and [isAuthenticated] is false. *)
Lemma empty_token_is_not_authenticated :
  let w :=
    after (@login _ _ sample_runtime "" ann)
      (after (@initialize _ _ sample_runtime) (world_of ∅ [])) in
  AuthState.token (auth w) = Some "" /\
  AuthState.user (auth w) = Some (User.to_value ann) /\
  isAuthenticated (auth w) = false.
Proof. vm_compute. repeat split; reflexivity. Qed.

(** C10, amended. After the initialisation and after any logins and
    logouts that follow it, the token in memory is there exactly when the
    profile is; [isAuthenticated] holds exactly when both are there and
    the token is not the empty string; and the provider is no longer
    loading. *)
Theorem token_and_profile_are_paired
    {S : Type} (LS : LocalStorage S) (R : JSRuntime)
    (w : World S) (ts : list Transition) :
  let a := auth (after_all ts (after initialize w)) in
  (AuthState.token a <> None <-> AuthState.user a <> None) /\
  (isAuthenticated a = true <->
   exists t u, AuthState.token a = Some t /\ AuthState.user a = Some u /\ t <> "") /\
  AuthState.isLoading a = false.
Proof.
  destruct (initialize_auth w) as [Hloaded Hinit].
  assert (Hpaired : paired (auth (after initialize w))).
  { destruct Hinit as [Hnone | (t & u & Ht & Hu & _ & Htruthy & _)];
      [left; exact Hnone | right; eauto]. }
  destruct (transitions_keep_pairing ts _ Hpaired) as [Hp Hl].
  simpl. rewrite Hl, Hloaded.
  destruct Hp as [[Ht Hu] | (t & u & Ht & Hu & Htruthy)];
    unfold isAuthenticated; rewrite Ht, Hu; simpl.
  - repeat split; try congruence.
    intros (t & u & Habs & _). discriminate.
  - rewrite Htruthy, andb_true_r. repeat split; try congruence.
    + intros Hne. exists t, u. repeat split. intros ->. discriminate.
    + intros (t' & u' & [= <-] & _ & Hne).
      destruct t; [congruence | reflexivity].
Qed.

(** ** The session across a reload *)

Lemma works_next (n : nat) (s : MemStorage) :
  works (Datatypes.S n) s ->
  exists s', next_call s = (false, s') /\ items s' = items s /\ works n s'.
Proof.
  unfold works, next_call. destruct s as [entries schedule]. simpl.
  destruct schedule as [| fails rest]; simpl.
  - intros _. exists (mkMem entries []). split; [reflexivity |]. split; [reflexivity |].
    simpl. destruct n; constructor.
  - intros Hall. inversion Hall as [| ? ? -> Hrest].
    exists (mkMem entries rest). split; [reflexivity |]. split; [reflexivity |].
    exact Hrest.
Qed.

Lemma getItem_works (n : nat) (k : string) (s : MemStorage) :
  works (Datatypes.S n) s ->
  exists s', getItem k s = (inr (items s !! k), s') /\ items s' = items s /\ works n s'.
Proof.
  intros Hworks. destruct (works_next n s Hworks) as (s' & Hcall & Hitems & Hn).
  exists s'. mem_call. unfold next_call in Hcall. rewrite Hcall, Hitems. auto.
Qed.

Lemma setItem_works (n : nat) (k v : string) (s : MemStorage) :
  works (Datatypes.S n) s ->
  exists s', setItem k v s = (inr tt, s') /\ items s' = <[k := v]> (items s) /\ works n s'.
Proof.
  intros Hworks. destruct (works_next n s Hworks) as (s' & Hcall & Hitems & Hn).
  eexists. mem_call. unfold next_call in Hcall. rewrite Hcall, Hitems.
  split; [reflexivity |]. split; [reflexivity |]. exact Hn.
Qed.

Lemma login_persists (R : JSRuntime) (n : nat) (newToken : string)
    (loggedInUser : User.t) (w : World MemStorage) :
  works (2 + n) (storage w) ->
  let w' := after (login newToken loggedInUser) w in
  items (storage w')
  = <[USER_KEY := JSON_stringify (User.fields loggedInUser)]>
      (<[TOKEN_KEY := newToken]> (items (storage w))) /\
  works n (storage w').
Proof.
  intros Hworks. unfold after, login. run.
  rewrite setAuthToken_run. simpl.
  destruct (setItem_works (1 + n) TOKEN_KEY newToken (storage w) Hworks)
    as (s1 & -> & Hitems1 & Hworks1).
  simpl. rewrite setUserInStorage_run. simpl.
  destruct (setItem_works n USER_KEY (JSON_stringify (User.fields loggedInUser)) s1 Hworks1)
    as (s2 & -> & Hitems2 & Hworks2).
  simpl. rewrite Hitems2, Hitems1. auto.
Qed.

Lemma initialize_restores (R : JSRuntime) (n : nat) (w : World MemStorage)
    (storedToken text : string) (storedUser : value) :
  works (2 + n) (storage w) ->
  items (storage w) !! TOKEN_KEY = Some storedToken ->
  items (storage w) !! USER_KEY = Some text ->
  nonempty storedToken = true ->
  JSON_parse text = inr storedUser ->
  expected storedUser = true ->
  auth (after initialize w) = AuthState.mk (Some storedToken) (Some storedUser) false.
Proof.
  intros Hworks Htoken Huser Hnonempty Hparse Hexpected.
  assert (Hobject : accepted storedUser = true /\ truthy storedUser = true).
  { destruct storedUser; try discriminate. simpl in *.
    apply andb_prop in Hexpected as [Hrest _]. apply andb_prop in Hrest as [_ ->]. auto. }
  destruct Hobject as [Haccepted Htruthy].
  assert (Htext : nonempty text = true).
  { destruct (nonempty text) eqn:Hempty; [reflexivity |].
    apply nonempty_false in Hempty. subst text.
    destruct JSON_parse_empty as [e He]. congruence. }
  unfold after, initialize. run.
  rewrite getAuthToken_run. simpl.
  destruct (getItem_works (1 + n) TOKEN_KEY (storage w) Hworks)
    as (s1 & -> & Hitems1 & Hworks1).
  simpl. rewrite getUserFromStorage_run. simpl.
  destruct (getItem_works n USER_KEY s1 Hworks1) as (s2 & -> & Hitems2 & Hworks2).
  rewrite Hitems1, Huser, Htoken, Htext, Hparse, Haccepted. simpl.
  rewrite Hnonempty, Htruthy. simpl.
  rewrite expected_properties_run by exact Htruthy. rewrite Hexpected. reflexivity.
Qed.

(** C8 as stated fails: the profile has an identifier and an email, both
    writes succeed, and the reload ends unauthenticated, with the storage
    emptied. *)
Lemma patron_zero_is_logged_out_by_reload :
  let w1 := after (@login _ _ sample_runtime "abc" zoe) (world_of ∅ []) in
  let w2 := after (@initialize _ _ sample_runtime) (reload w1) in
  valid_profile (User.to_value zoe) = true /\
  items (storage w1) !! TOKEN_KEY = Some "abc" /\
  items (storage w1) !! USER_KEY = Some zoe_text /\
  status_of (auth w2) = Unauthenticated /\
  items (storage w2) = ∅.
Proof. vm_compute. repeat split; reflexivity. Qed.

(** C8, amended. For every non-empty token and every profile whose [id],
    [email] and [patronId] are all truthy and which [JSON.parse] gives
    back from its [JSON.stringify] text: [login] followed by a reload and
    the initialisation ends authenticated, with the same token and the
    same profile in memory, provided the two writes and the two reads of
    the storage succeed. *)
Theorem login_survives_reload
    (R : JSRuntime) (w : World MemStorage) (newToken : string) (loggedInUser : User.t) :
  nonempty newToken = true ->
  expected (User.to_value loggedInUser) = true ->
  JSON_parse (JSON_stringify (User.fields loggedInUser))
  = inr (User.to_value loggedInUser) ->
  works 4 (storage w) ->
  let w' := after initialize (reload (after (login newToken loggedInUser) w)) in
  auth w' = AuthState.mk (Some newToken) (Some (User.to_value loggedInUser)) false /\
  status_of (auth w') = Authenticated.
Proof.
  intros Htoken Hexpected Hround Hworks w'.
  destruct (login_persists R 2 newToken loggedInUser w Hworks) as [Hitems Hworks'].
  assert (Hauth : auth w'
    = AuthState.mk (Some newToken) (Some (User.to_value loggedInUser)) false).
  { subst w'.
    apply (initialize_restores R 0 _ newToken
             (JSON_stringify (User.fields loggedInUser))); auto.
    - simpl. rewrite Hitems. rewrite lookup_insert_ne by discriminate.
      apply lookup_insert_eq.
    - simpl. rewrite Hitems. apply lookup_insert_eq. }
  split; [exact Hauth |].
  rewrite Hauth. unfold status_of, isAuthenticated. simpl. rewrite Htoken. reflexivity.
Qed.

Lemma login_survives_reload_witness :
  let w' :=
    after (@initialize _ _ sample_runtime)
      (reload (after (@login _ _ sample_runtime "abc" ann)
                 (world_of ∅ [false; false; false; false; true]))) in
  auth w' = AuthState.mk (Some "abc") (Some (User.to_value ann)) false /\
  status_of (auth w') = Authenticated.
Proof.
  apply (login_survives_reload sample_runtime
           (world_of ∅ [false; false; false; false; true]) "abc" ann).
  - reflexivity.
  - reflexivity.
  - vm_compute. reflexivity.
  - repeat constructor.
Defined.

(** With a token and no profile in storage, and the two reads working,
    the initialisation ends unauthenticated and leaves the entries as
    they were. *)
Lemma initialize_without_profile (R : JSRuntime) (n : nat) (w : World MemStorage)
    (storedToken : string) :
  works (2 + n) (storage w) ->
  items (storage w) !! TOKEN_KEY = Some storedToken ->
  items (storage w) !! USER_KEY = None ->
  status_of (auth (after initialize w)) = Unauthenticated /\
  items (storage (after initialize w)) = items (storage w).
Proof.
  intros Hworks Htoken Huser. unfold after, initialize. run.
  rewrite getAuthToken_run. simpl.
  destruct (getItem_works (1 + n) TOKEN_KEY (storage w) Hworks)
    as (s1 & -> & Hitems1 & Hworks1).
  simpl. rewrite getUserFromStorage_run. simpl.
  destruct (getItem_works n USER_KEY s1 Hworks1) as (s2 & -> & Hitems2 & Hworks2).
  rewrite Hitems1, Huser, Htoken. simpl. rewrite andb_false_r. simpl.
  split; [reflexivity | congruence].
Qed.

(** The sibling branch: a stored profile with an email and no identifier
    takes the token with it. *)
Example profile_without_id_clears_both :
  let w := after (@initialize _ _ sample_runtime)
             (world_of {[ TOKEN_KEY := "abc"; USER_KEY := email_only_text ]} []) in
  status_of (auth w) = Unauthenticated /\ items (storage w) = ∅.
Proof. vm_compute. split; reflexivity. Qed.

(** C1: the code at storage holding the token "abc" and no profile. The
    session ends unauthenticated, and the token is still in storage. *)
Theorem orphan_token_is_left_in_storage :
  let w := after (@initialize _ _ sample_runtime)
             (world_of {[ TOKEN_KEY := "abc" ]} []) in
  status_of (auth w) = Unauthenticated /\
  items (storage w) !! TOKEN_KEY = Some "abc".
Proof. vm_compute. split; reflexivity. Qed.

(** ** More on the request client *)

Lemma handleRequest_frame
    {S : Type} (R : JSRuntime) (network : Request -> FetchOutcome)
    (url : string) (options : RequestInit.t) (w : World S) :
  request_frame (config_of url options) w (after (handleRequest network url options) w).
Proof.
  unfold request_frame, after, handleRequest, fetch, parse_body. run.
  destruct (network _) as [e | response]; simpl.
  { repeat split; try reflexivity. eexists. rewrite <- !app_assoc. reflexivity. }
  destruct (Response.status response =? 204)%N; simpl.
  { repeat split; try reflexivity. eexists. rewrite <- !app_assoc. reflexivity. }
  destruct (Response.text response) as [e | responseText]; simpl.
  { repeat split; try reflexivity. eexists. rewrite <- !app_assoc. reflexivity. }
  destruct (JSON_parse responseText) as [e | responseData]; simpl.
  - destruct (Response.ok response); simpl;
      (repeat split; try reflexivity; eexists; rewrite <- !app_assoc; reflexivity).
  - destruct responseData as [| | b | n | s | items | fields]; simpl;
      try (destruct (Response.ok response); simpl;
           repeat split; try reflexivity; eexists; rewrite <- !app_assoc; reflexivity).
    destruct (is_true (assoc "error" fields)); simpl.
    { destruct (cannot_convert _); simpl;
        (repeat split; try reflexivity; eexists; rewrite <- !app_assoc; reflexivity). }
    destruct (Response.ok response); simpl; [| destruct (cannot_convert _); simpl];
      (repeat split; try reflexivity; eexists; rewrite <- !app_assoc; reflexivity).
Qed.

(** A 204 answer to a DELETE that accepts plain text, with a body that is
    not JSON. *)
Lemma no_content_short_circuit_witness :
  result (@handleRequest MemStorage sample_runtime
            (answers 204 "No Content" "gone") "/api/patron/favorites/7"
            (RequestInit.mk (Some "DELETE") {[ "Accept" := "text/plain" ]} None))
    (world_of ∅ [])
  = Normal (VObj []).
Proof.
  apply (@no_content_short_circuit MemStorage sample_runtime
           (answers 204 "No Content" "gone") "/api/patron/favorites/7"
           (RequestInit.mk (Some "DELETE") {[ "Accept" := "text/plain" ]} None)
           (world_of ∅ []) (Response.mk 204 "No Content" (inr "gone")));
    reflexivity.
Defined.

(** X2. When no response arrives ([fetch] rejects), or the body of a
    response other than 204 cannot be read, the request rejects with an
    [ApiError] that carries the message of the failure (a fixed text when
    that message is empty), its stack as details, no status (even when a
    response had one) and no body. *)
Theorem transport_failure_is_wrapped
    {S : Type} (R : JSRuntime) (network : Request -> FetchOutcome)
    (url : string) (options : RequestInit.t) (w : World S) (e : NativeError) :
  network (config_of url options) = NetworkFailure e \/
  (exists response,
     network (config_of url options) = Responded response /\
     Response.status response <> 204%N /\ Response.text response = inl e) ->
  result (handleRequest network url options) w
  = Throw (EApi (api_error
      (VStr (str_or (ne_message e) "An unexpected network or processing error occurred."))
      None (exn_stack (ENative e)) VUndefined)).
Proof.
  intros [Hnet | (response & Hnet & Hstatus & Htext)];
    unfold result, handleRequest, fetch, parse_body; run; rewrite Hnet; simpl.
  - reflexivity.
  - apply N.eqb_neq in Hstatus. rewrite Hstatus, Htext. reflexivity.
Qed.

Lemma transport_failure_is_wrapped_witness :
  result (@handleRequest MemStorage sample_runtime
            (fun _ => NetworkFailure (mkNativeError "" (Some "at fetch")))
            "/api/songs/search" RequestInit.empty)
    (world_of ∅ [])
  = Throw (EApi (ApiError.mk "An unexpected network or processing error occurred." true
      (VStr "An unexpected network or processing error occurred.") None
      (VStr "at fetch") true VUndefined)).
Proof.
  apply (@transport_failure_is_wrapped MemStorage sample_runtime
           (fun _ => NetworkFailure (mkNativeError "" (Some "at fetch")))
           "/api/songs/search" RequestInit.empty (world_of ∅ [])
           (mkNativeError "" (Some "at fetch"))).
  left. reflexivity.
Defined.

(** X3. A response of a status outside 200-299 whose body parses to a
    value other than [null] without [error === true] rejects: when the
    body's [message], else its [errorString], else "Request failed:
    <status>", converts to a string, with the [ApiError] that has it as
    [errorString], with the body's [details], the status and the whole
    body; when it does not convert, with the [ApiError] made of the
    [TypeError] of the conversion, with no status and no body. *)
Theorem failure_status_without_flag
    {S : Type} (R : JSRuntime) (network : Request -> FetchOutcome)
    (url : string) (options : RequestInit.t) (w : World S)
    (response : Response.t) (responseText : string) (responseData : value) :
  network (config_of url options) = Responded response ->
  Response.ok response = false ->
  Response.text response = inr responseText ->
  JSON_parse responseText = inr responseData ->
  nullish responseData = false ->
  is_true (field responseData "error") = false ->
  let message :=
    or_else (field responseData "message")
      (or_else (field responseData "errorString")
         (VStr ("Request failed: " ++ pretty (Response.status response)))) in
  result (handleRequest network url options) w
  = Throw (EApi
      (if cannot_convert message then
         api_error
           (VStr (str_or (ne_message conversion_error)
                    "An unexpected network or processing error occurred."))
           None (exn_stack (ENative conversion_error)) VUndefined
       else
         api_error message (Some (Response.status response))
           (field responseData "details") responseData)).
Proof.
  intros Hnet Hok Htext Hparse Hnull Hflag message.
  unfold result, handleRequest, fetch, parse_body. run. rewrite Hnet. simpl.
  assert (Hstatus : (Response.status response =? 204)%N = false).
  { apply N.eqb_neq. intros H204. unfold Response.ok in Hok. rewrite H204 in Hok.
    discriminate. }
  rewrite Hstatus, Htext. simpl. rewrite Hparse. simpl.
  destruct responseData; try discriminate; subst message; simpl in *;
    try (rewrite Hok; reflexivity).
  rewrite Hflag, Hok. simpl. destruct (cannot_convert _); reflexivity.
Qed.

Lemma failure_status_without_flag_witness :
  result (@handleRequest MemStorage sample_runtime
            (answers 404 "Not Found" id_only_text) "/api/songs/7" RequestInit.empty)
    (world_of ∅ [])
  = Throw (EApi (ApiError.mk "Request failed: 404" true (VStr "Request failed: 404")
      (Some 404%N) VUndefined true id_only)).
Proof.
  apply (@failure_status_without_flag MemStorage sample_runtime
           (answers 404 "Not Found" id_only_text) "/api/songs/7" RequestInit.empty
           (world_of ∅ []) (Response.mk 404 "Not Found" (inr id_only_text))
           id_only_text id_only); reflexivity.
Defined.

(** X4. A response of a status in 200-299 other than 204 whose body
    parses to a value other than [null] without [error === true]
    resolves with that value, unchanged. *)
Theorem success_body_verbatim
    {S : Type} (R : JSRuntime) (network : Request -> FetchOutcome)
    (url : string) (options : RequestInit.t) (w : World S)
    (response : Response.t) (responseText : string) (responseData : value) :
  network (config_of url options) = Responded response ->
  Response.ok response = true ->
  Response.status response <> 204%N ->
  Response.text response = inr responseText ->
  JSON_parse responseText = inr responseData ->
  nullish responseData = false ->
  is_true (field responseData "error") = false ->
  result (handleRequest network url options) w = Normal responseData.
Proof.
  intros Hnet Hok Hstatus Htext Hparse Hnull Hflag.
  unfold result, handleRequest, fetch, parse_body. run. rewrite Hnet. simpl.
  apply N.eqb_neq in Hstatus. rewrite Hstatus, Htext. simpl. rewrite Hparse. simpl.
  destruct responseData; try discriminate; simpl in *;
    try (rewrite Hok; reflexivity).
  rewrite Hflag, Hok. reflexivity.
Qed.

Lemma success_body_verbatim_witness :
  result (@handleRequest MemStorage sample_runtime
            (answers 201 "Created" ann_text) "/api/patron/auth/register"
            (RequestInit.mk (Some "POST") ∅ (Some "{}")))
    (world_of ∅ [])
  = Normal (User.to_value ann).
Proof.
  apply (@success_body_verbatim MemStorage sample_runtime
           (answers 201 "Created" ann_text) "/api/patron/auth/register"
           (RequestInit.mk (Some "POST") ∅ (Some "{}"))
           (world_of ∅ []) (Response.mk 201 "Created" (inr ann_text))
           ann_text (User.to_value ann)); try reflexivity.
  discriminate.
Defined.

(** X5. A body that is the JSON [null] is no payload: under every status
    but 204, the success statuses included, the request rejects with an
    [ApiError] that has no status and no body attached. *)
Theorem null_body_is_rejected
    {S : Type} (R : JSRuntime) (network : Request -> FetchOutcome)
    (url : string) (options : RequestInit.t) (w : World S)
    (response : Response.t) (responseText : string) :
  network (config_of url options) = Responded response ->
  Response.status response <> 204%N ->
  Response.text response = inr responseText ->
  JSON_parse responseText = inr VNull ->
  exists e,
    result (handleRequest network url options) w = Throw (EApi e) /\
    canonical e /\ ApiError.status e = None /\ ApiError.apiResponse e = VUndefined.
Proof.
  intros Hnet Hstatus Htext Hparse.
  unfold result, handleRequest, fetch, parse_body. run. rewrite Hnet. simpl.
  apply N.eqb_neq in Hstatus. rewrite Hstatus, Htext. simpl. rewrite Hparse. simpl.
  eexists. split; [reflexivity |]. split; [| split; reflexivity].
  apply api_error_canonical. reflexivity.
Qed.

Lemma null_body_is_rejected_witness :
  exists e,
    result (@handleRequest MemStorage null_runtime
              (answers 200 "OK" "null") "/api/songs/7" RequestInit.empty)
      (world_of ∅ [])
    = Throw (EApi e) /\
    canonical e /\ ApiError.status e = None /\ ApiError.apiResponse e = VUndefined.
Proof.
  apply (@null_body_is_rejected MemStorage null_runtime
           (answers 200 "OK" "null") "/api/songs/7" RequestInit.empty
           (world_of ∅ []) (Response.mk 200 "OK" (inr "null")) "null");
    try reflexivity.
  discriminate.
Defined.

(** X6. The request that goes out is the caller's, to the caller's url,
    with the caller's method and body; each header is the caller's when
    the caller gives it, [application/json] for [Content-Type] and
    [Accept] otherwise, and absent for any other name. *)
Theorem caller_headers_override_defaults
    {S : Type} (R : JSRuntime) (network : Request -> FetchOutcome)
    (url : string) (options : RequestInit.t) (w : World S) :
  exists request,
    issued (after (handleRequest network url options) w) = (issued w ++ [request])%list /\
    req_url request = url /\
    req_method request = RequestInit.method options /\
    req_body request = RequestInit.body options /\
    forall name,
      req_headers request !! name
      = match RequestInit.headers options !! name with
        | Some v => Some v
        | None =>
            if decide (name = "Content-Type" \/ name = "Accept")
            then Some "application/json" else None
        end.
Proof.
  exists (config_of url options).
  destruct (handleRequest_frame R network url options w) as (_ & _ & _ & Hissued & _).
  split; [exact Hissued |]. repeat split. intros name. simpl.
  unfold defaultHeaders.
  destruct (RequestInit.headers options !! name) as [v |] eqn:Hcaller.
  - apply lookup_union_Some_l. exact Hcaller.
  - rewrite lookup_union_r by exact Hcaller.
    rewrite lookup_insert. destruct (decide ("Content-Type" = name)) as [<- | Hct].
    + rewrite decide_True by (left; reflexivity). reflexivity.
    + rewrite lookup_insert. destruct (decide ("Accept" = name)) as [<- | Hacc].
      * rewrite decide_True by (right; reflexivity). reflexivity.
      * rewrite lookup_empty. rewrite decide_False; [reflexivity |].
        intros [-> | ->]; congruence.
Qed.

(** X7. The request client keeps no session: a request reads and writes
    nothing of the storage, leaves the provider's state and the router
    alone, and only adds lines to the console. *)
Theorem handleRequest_keeps_session
    {S : Type} (R : JSRuntime) (network : Request -> FetchOutcome)
    (url : string) (options : RequestInit.t) (w : World S) :
  let w' := after (handleRequest network url options) w in
  storage w' = storage w /\ auth w' = auth w /\ history w' = history w /\
  exists lines, console w' = (console w ++ lines)%list.
Proof.
  destruct (handleRequest_frame R network url options w) as (Hs & Ha & Hh & _ & Hc).
  simpl. auto.
Qed.


(** ** More on the session store *)

Lemma mem_getItem (k : string) (s s' : MemStorage) (r : NativeError + option string) :
  getItem k s = (r, s') ->
  items s' = items s /\ (r = inr (items s !! k) \/ exists e, r = inl e).
Proof.
  mem_call. destruct s as [entries [| [|] rest]]; simpl; intros [= <- <-]; simpl; eauto.
Qed.

Lemma mem_setItem (k v : string) (s s' : MemStorage) (r : NativeError + unit) :
  setItem k v s = (r, s') ->
  (r = inr tt /\ items s' = <[k := v]> (items s)) \/
  ((exists e, r = inl e) /\ items s' = items s).
Proof.
  mem_call. destruct s as [entries [| [|] rest]]; simpl; intros [= <- <-]; simpl; eauto.
Qed.

Lemma mem_removeItem (k : string) (s s' : MemStorage) (r : NativeError + unit) :
  removeItem k s = (r, s') ->
  (r = inr tt /\ items s' = delete k (items s)) \/
  ((exists e, r = inl e) /\ items s' = items s).
Proof.
  mem_call. destruct s as [entries [| [|] rest]]; simpl; intros [= <- <-]; simpl; eauto.
Qed.

Lemma removeItem_works (n : nat) (k : string) (s : MemStorage) :
  works (Datatypes.S n) s ->
  exists s', removeItem k s = (inr tt, s') /\ items s' = delete k (items s) /\ works n s'.
Proof.
  intros Hworks. destruct (works_next n s Hworks) as (s' & Hcall & Hitems & Hn).
  eexists. mem_call. unfold next_call in Hcall. rewrite Hcall, Hitems.
  split; [reflexivity |]. split; [reflexivity |]. exact Hn.
Qed.

Section StoreOnMem.
Context `{JSRuntime}.

Lemma setAuthToken_items (token : string) (w : World MemStorage) :
  items (storage (after (setAuthToken token) w)) = <[TOKEN_KEY := token]> (items (storage w))
  \/ items (storage (after (setAuthToken token) w)) = items (storage w).
Proof.
  unfold after. rewrite setAuthToken_run.
  destruct (setItem TOKEN_KEY token (storage w)) as [r s'] eqn:Hcall.
  destruct (mem_setItem _ _ _ _ _ Hcall) as [[-> Hi] | [[e ->] Hi]]; simpl; auto.
Qed.

Lemma setUserInStorage_items (user : User.t) (w : World MemStorage) :
  items (storage (after (setUserInStorage user) w))
  = <[USER_KEY := JSON_stringify (User.fields user)]> (items (storage w))
  \/ items (storage (after (setUserInStorage user) w)) = items (storage w).
Proof.
  unfold after. rewrite setUserInStorage_run.
  destruct (setItem USER_KEY _ (storage w)) as [r s'] eqn:Hcall.
  destruct (mem_setItem _ _ _ _ _ Hcall) as [[-> Hi] | [[e ->] Hi]]; simpl; auto.
Qed.

Lemma removeAuthToken_items (w : World MemStorage) :
  items (storage (after removeAuthToken w)) = delete TOKEN_KEY (items (storage w))
  \/ items (storage (after removeAuthToken w)) = items (storage w).
Proof.
  unfold after. rewrite removeAuthToken_run.
  destruct (removeItem TOKEN_KEY (storage w)) as [r s'] eqn:Hcall.
  destruct (mem_removeItem _ _ _ _ Hcall) as [[-> Hi] | [[e ->] Hi]]; simpl; auto.
Qed.

Lemma removeUserFromStorage_items (w : World MemStorage) :
  items (storage (after removeUserFromStorage w)) = delete USER_KEY (items (storage w))
  \/ items (storage (after removeUserFromStorage w)) = items (storage w).
Proof.
  unfold after. rewrite removeUserFromStorage_run.
  destruct (removeItem USER_KEY (storage w)) as [r s'] eqn:Hcall.
  destruct (mem_removeItem _ _ _ _ Hcall) as [[-> Hi] | [[e ->] Hi]]; simpl; auto.
Qed.

Lemma getAuthToken_items (w : World MemStorage) :
  items (storage (after getAuthToken w)) = items (storage w).
Proof.
  unfold after. rewrite getAuthToken_run.
  destruct (getItem TOKEN_KEY (storage w)) as [r s'] eqn:Hcall.
  destruct (mem_getItem _ _ _ _ Hcall) as [Hi [-> | [e ->]]]; simpl; auto.
Qed.

Lemma getUserFromStorage_items (w : World MemStorage) :
  items (storage (after getUserFromStorage w)) = delete USER_KEY (items (storage w))
  \/ items (storage (after getUserFromStorage w)) = items (storage w).
Proof.
  unfold after. rewrite getUserFromStorage_run.
  destruct (getItem USER_KEY (storage w)) as [r s'] eqn:Hcall.
  destruct (mem_getItem _ _ _ _ Hcall) as [Hi Hr]. rewrite <- Hi.
  assert (Hrm : forall l m,
    items (storage (after removeUserFromStorage (say l m (set_storage s' w))))
      = delete USER_KEY (items s')
    \/ items (storage (after removeUserFromStorage (say l m (set_storage s' w))))
      = items s').
  { intros l m. apply (removeUserFromStorage_items (say l m (set_storage s' w))). }
  destruct r as [e | [text |]]; simpl; auto.
  destruct (nonempty text); simpl; auto.
  destruct (JSON_parse text) as [e | user]; simpl; auto.
  destruct (accepted user); simpl; auto.
Qed.
End StoreOnMem.

(** X9. While the storage works, the token that [setAuthToken] stores is
    the one [getAuthToken] reads back, the empty token included, and after
    [removeAuthToken] there is none to read. *)
Theorem token_round_trip (w : World MemStorage) (token : string) :
  works 2 (storage w) ->
  result getAuthToken (after (setAuthToken token) w) = Normal (Some token) /\
  result getAuthToken (after removeAuthToken w) = Normal None.
Proof.
  intros Hworks. unfold result, after. split.
  - rewrite setAuthToken_run.
    destruct (setItem_works 1 TOKEN_KEY token (storage w) Hworks)
      as (s1 & -> & Hitems1 & Hworks1).
    rewrite getAuthToken_run. simpl.
    destruct (getItem_works 0 TOKEN_KEY s1 Hworks1) as (s2 & -> & _ & _).
    rewrite Hitems1, lookup_insert_eq. reflexivity.
  - rewrite removeAuthToken_run.
    destruct (removeItem_works 1 TOKEN_KEY (storage w) Hworks)
      as (s1 & -> & Hitems1 & Hworks1).
    rewrite getAuthToken_run. simpl.
    destruct (getItem_works 0 TOKEN_KEY s1 Hworks1) as (s2 & -> & _ & _).
    rewrite Hitems1, lookup_delete_eq. reflexivity.
Qed.

Lemma token_round_trip_witness :
  let w := world_of {[ TOKEN_KEY := "old" ]} [false; false; true] in
  result getAuthToken (after (setAuthToken "") w) = Normal (Some "") /\
  result getAuthToken (after removeAuthToken w) = Normal None.
Proof.
  apply (token_round_trip (world_of {[ TOKEN_KEY := "old" ]} [false; false; true]) "").
  repeat constructor.
Defined.

(** X10. While the storage works and [JSON.parse] gives a user back from
    its [JSON.stringify] text: a user stored by [setUserInStorage] is
    read back by [getUserFromStorage], and left in storage, exactly when
    its email is not empty; a user with an empty email is read back as
    [null], and the read deletes what was just stored. *)
Theorem user_round_trip (R : JSRuntime) (w : World MemStorage) (user : User.t) :
  works 3 (storage w) ->
  JSON_parse (JSON_stringify (User.fields user)) = inr (User.to_value user) ->
  let w1 := after (setUserInStorage user) w in
  let w2 := after getUserFromStorage w1 in
  if nonempty (User.email user) then
    result getUserFromStorage w1 = Normal (Some (User.to_value user)) /\
    items (storage w2) = <[USER_KEY := JSON_stringify (User.fields user)]> (items (storage w))
  else
    result getUserFromStorage w1 = Normal None /\
    items (storage w2) = delete USER_KEY (items (storage w)).
Proof.
  intros Hworks Hround w1 w2. subst w2 w1. unfold result, after.
  rewrite setUserInStorage_run.
  destruct (setItem_works 2 USER_KEY (JSON_stringify (User.fields user)) (storage w) Hworks)
    as (s1 & -> & Hitems1 & Hworks1).
  rewrite getUserFromStorage_run. simpl.
  destruct (getItem_works 1 USER_KEY s1 Hworks1) as (s2 & -> & Hitems2 & Hworks2).
  rewrite Hitems1, lookup_insert_eq.
  assert (Htext : nonempty (JSON_stringify (User.fields user)) = true).
  { destruct (nonempty _) eqn:Hempty; [reflexivity |].
    apply nonempty_false in Hempty. rewrite Hempty in Hround.
    destruct JSON_parse_empty as [e He]. congruence. }
  rewrite Htext, Hround. simpl.
  destruct (nonempty (User.email user)); simpl.
  - rewrite Hitems2, Hitems1. auto.
  - split; [reflexivity |]. unfold after. rewrite removeUserFromStorage_run. simpl.
    destruct (removeItem_works 0 USER_KEY s2 Hworks2) as (s3 & -> & Hitems3 & _).
    simpl. rewrite Hitems3, Hitems2, Hitems1. apply delete_insert_eq.
Qed.

Lemma user_round_trip_witness :
  let w1 := after (@setUserInStorage _ _ sample_runtime ann) (world_of ∅ []) in
  let w2 := after (@getUserFromStorage _ _ sample_runtime) w1 in
  result (@getUserFromStorage _ _ sample_runtime) w1 = Normal (Some (User.to_value ann)) /\
  items (storage w2) = <[USER_KEY := ann_text]> ∅.
Proof.
  apply (user_round_trip sample_runtime (world_of ∅ []) ann).
  - repeat constructor.
  - vm_compute. reflexivity.
Defined.

(** X11. The two keys of the session are independent, whether the
    storage works or throws: writing, reading or removing the token never
    changes the profile entry, and writing, reading or removing the
    profile never changes the token entry; reading the token changes no
    entry at all. *)
Theorem session_keys_are_independent
    (R : JSRuntime) (w : World MemStorage) (token : string) (user : User.t) :
  (items (storage (after (setAuthToken token) w)) !! USER_KEY = items (storage w) !! USER_KEY /\
   items (storage (after removeAuthToken w)) !! USER_KEY = items (storage w) !! USER_KEY /\
   items (storage (after getAuthToken w)) = items (storage w)) /\
  (items (storage (after (setUserInStorage user) w)) !! TOKEN_KEY
   = items (storage w) !! TOKEN_KEY /\
   items (storage (after removeUserFromStorage w)) !! TOKEN_KEY
   = items (storage w) !! TOKEN_KEY /\
   items (storage (after getUserFromStorage w)) !! TOKEN_KEY
   = items (storage w) !! TOKEN_KEY).
Proof.
  assert (Hne : TOKEN_KEY <> USER_KEY) by discriminate.
  split; [split; [| split] | split; [| split]].
  - destruct (setAuthToken_items token w) as [-> | ->];
      [apply lookup_insert_ne; exact Hne | reflexivity].
  - destruct (removeAuthToken_items w) as [-> | ->];
      [apply lookup_delete_ne; exact Hne | reflexivity].
  - apply getAuthToken_items.
  - destruct (setUserInStorage_items user w) as [-> | ->];
      [apply lookup_insert_ne; congruence | reflexivity].
  - destruct (removeUserFromStorage_items w) as [-> | ->];
      [apply lookup_delete_ne; congruence | reflexivity].
  - destruct (getUserFromStorage_items w) as [-> | ->];
      [apply lookup_delete_ne; congruence | reflexivity].
Qed.

(** ** More on the provider *)

Section StoreFrames.
Context {S : Type} `{LocalStorage S} `{JSRuntime}.

Lemma setAuthToken_total (token : string) (w : World S) :
  setAuthToken token w = (Normal tt, after (setAuthToken token) w) /\
  store_frame w (after (setAuthToken token) w).
Proof.
  unfold after, store_frame. rewrite setAuthToken_run. storage_cases; auto.
Qed.

Lemma setUserInStorage_total (user : User.t) (w : World S) :
  setUserInStorage user w = (Normal tt, after (setUserInStorage user) w) /\
  store_frame w (after (setUserInStorage user) w).
Proof.
  unfold after, store_frame. rewrite setUserInStorage_run. storage_cases; auto.
Qed.

Lemma removeAuthToken_total (w : World S) :
  removeAuthToken w = (Normal tt, after removeAuthToken w) /\
  store_frame w (after removeAuthToken w).
Proof.
  unfold after, store_frame. rewrite removeAuthToken_run. storage_cases; auto.
Qed.

Lemma removeUserFromStorage_total (w : World S) :
  removeUserFromStorage w = (Normal tt, after removeUserFromStorage w) /\
  store_frame w (after removeUserFromStorage w).
Proof.
  unfold after, store_frame. rewrite removeUserFromStorage_run. storage_cases; auto.
Qed.

Lemma getAuthToken_total (w : World S) :
  (exists r, getAuthToken w = (Normal r, after getAuthToken w)) /\
  store_frame w (after getAuthToken w).
Proof.
  unfold after, store_frame. rewrite getAuthToken_run. storage_cases; eauto.
Qed.

Lemma getUserFromStorage_total (w : World S) :
  (exists r, getUserFromStorage w = (Normal r, after getUserFromStorage w)) /\
  store_frame w (after getUserFromStorage w).
Proof.
  unfold after. rewrite getUserFromStorage_run.
  assert (Hrm : forall w0 : World S, store_frame w0 (after removeUserFromStorage w0)).
  { intros w0. apply removeUserFromStorage_total. }
  assert (Hsay : forall l m s',
    store_frame w (after removeUserFromStorage (say l m (set_storage s' w)))).
  { intros l m s'. destruct (Hrm (say l m (set_storage s' w))) as (Ha & Hh & Hi).
    repeat split; [rewrite Ha | rewrite Hh | rewrite Hi]; reflexivity. }
  storage_cases; [split; [eauto | apply Hsay] |].
  destruct r as [text |]; [| unfold store_frame; simpl; eauto].
  destruct (nonempty text); [| unfold store_frame; simpl; eauto].
  destruct (JSON_parse text) as [e | user]; [split; [eauto | apply Hsay] |].
  destruct (accepted user); [unfold store_frame; simpl; eauto |].
  split; [eauto | apply Hsay].
Qed.

(** X12. [login] always completes, whatever the storage does with the two
    writes: the token and the profile are in memory afterwards, and the
    router is sent to [/favorites], replacing the current entry; no
    request is issued. *)
Theorem login_proceeds_whatever_the_storage
    (newToken : string) (loggedInUser : User.t) (w : World S) :
  let w' := after (login newToken loggedInUser) w in
  result (login newToken loggedInUser) w = Normal tt /\
  AuthState.token (auth w') = Some newToken /\
  AuthState.user (auth w') = Some (User.to_value loggedInUser) /\
  history w' = (history w ++ [("/favorites", true)])%list /\
  issued w' = issued w.
Proof.
  unfold result, after, login. run.
  match goal with
  | |- context [setAuthToken ?t ?w0] =>
      destruct (setAuthToken_total t w0) as (-> & Ha1 & Hh1 & Hi1);
      set (w1 := after (setAuthToken t) w0) in *
  end.
  destruct (setUserInStorage_total loggedInUser w1) as (-> & Ha2 & Hh2 & Hi2).
  simpl. rewrite Hh2, Hh1, Hi2, Hi1. auto.
Qed.

(** X13. [logout] always completes, whatever the storage does with the
    two removals: neither token nor profile is in memory afterwards, so
    [isAuthenticated] is false, and the router is sent to [/login],
    replacing the current entry. *)
Theorem logout_proceeds_whatever_the_storage (w : World S) :
  let w' := after logout w in
  result logout w = Normal tt /\
  AuthState.token (auth w') = None /\
  AuthState.user (auth w') = None /\
  isAuthenticated (auth w') = false /\
  history w' = (history w ++ [("/login", true)])%list /\
  issued w' = issued w.
Proof.
  unfold result, after, logout. run.
  match goal with
  | |- context [removeAuthToken ?w0] =>
      destruct (removeAuthToken_total w0) as (-> & Ha1 & Hh1 & Hi1);
      set (w1 := after removeAuthToken w0) in *
  end.
  destruct (removeUserFromStorage_total w1) as (-> & Ha2 & Hh2 & Hi2).
  simpl. rewrite Hh2, Hh1, Hi2, Hi1. repeat split; reflexivity.
Qed.
End StoreFrames.

Section ProviderOnMem.
Context `{JSRuntime}.

Lemma shrinks (k : string) (before now : gmap string string) :
  now = delete k before \/ now = before -> now ⊆ before.
Proof. intros [-> | ->]; [apply delete_subseteq | reflexivity]. Qed.

Lemma getAuthToken_step (w : World MemStorage) :
  (exists r, getAuthToken w = (Normal r, after getAuthToken w)) /\
  only_removes w (after getAuthToken w).
Proof.
  destruct (getAuthToken_total w) as (Hr & _ & Hh & Hi).
  split; [exact Hr |]. split; [| auto]. rewrite getAuthToken_items. reflexivity.
Qed.

Lemma getUserFromStorage_step (w : World MemStorage) :
  (exists r, getUserFromStorage w = (Normal r, after getUserFromStorage w)) /\
  only_removes w (after getUserFromStorage w).
Proof.
  destruct (getUserFromStorage_total w) as (Hr & _ & Hh & Hi).
  split; [exact Hr |]. split; [| auto].
  apply (shrinks USER_KEY), getUserFromStorage_items.
Qed.

Lemma removeAuthToken_step (w : World MemStorage) :
  removeAuthToken w = (Normal tt, after removeAuthToken w) /\
  only_removes w (after removeAuthToken w).
Proof.
  destruct (removeAuthToken_total w) as (Hr & _ & Hh & Hi).
  split; [exact Hr |]. split; [| auto].
  apply (shrinks TOKEN_KEY), removeAuthToken_items.
Qed.

Lemma removeUserFromStorage_step (w : World MemStorage) :
  removeUserFromStorage w = (Normal tt, after removeUserFromStorage w) /\
  only_removes w (after removeUserFromStorage w).
Proof.
  destruct (removeUserFromStorage_total w) as (Hr & _ & Hh & Hi).
  split; [exact Hr |]. split; [| auto].
  apply (shrinks USER_KEY), removeUserFromStorage_items.
Qed.

Ltac chain :=
  unfold only_removes in *; simpl in *;
  repeat match goal with H : _ /\ _ |- _ => destruct H end;
  repeat split;
  first
    [ congruence
    | repeat (etransitivity; [eassumption |]); reflexivity ].

(** X14. The initialisation always completes and never writes: whether
    the storage works or throws, every entry that is in storage
    afterwards was there before with the same text (entries are at most
    removed), the router is not used and no request is issued. *)
Theorem initialize_only_removes (w : World MemStorage) :
  result initialize w = Normal tt /\ only_removes w (after initialize w).
Proof.
  unfold result, after, initialize. run.
  match goal with
  | |- context [getAuthToken ?w0] =>
      destruct (getAuthToken_step w0) as ([storedToken Ht] & H1); rewrite Ht;
      set (w1 := after getAuthToken w0) in *
  end.
  destruct (getUserFromStorage_step w1) as ([storedUser Hu] & H2); rewrite Hu.
  set (w2 := after getUserFromStorage w1) in *.
  destruct (truthy_token storedToken && truthy_user storedUser) eqn:Hboth; simpl.
  - apply andb_prop in Hboth as [_ Huser].
    destruct storedUser as [u |]; [| discriminate]. simpl in Huser.
    cbn [nullable]. rewrite expected_properties_run by exact Huser.
    destruct (expected u); simpl.
    + split; [reflexivity |]. subst w1 w2. chain.
    + match goal with
      | |- context [removeAuthToken ?w0] =>
          destruct (removeAuthToken_step w0) as (-> & H3);
          set (w3 := after removeAuthToken w0) in *
      end.
      destruct (removeUserFromStorage_step w3) as (-> & H4).
      simpl. split; [reflexivity |]. subst w1 w2 w3. chain.
  - split; [reflexivity |]. subst w1 w2. chain.
Qed.
End ProviderOnMem.

(** X15. While the storage works, [logout] removes both entries of the
    session and touches no other entry; a read of the token and then of
    the profile both give [null]. *)
Theorem logout_clears_the_storage (R : JSRuntime) (w : World MemStorage) :
  works 4 (storage w) ->
  let w' := after logout w in
  items (storage w') = delete USER_KEY (delete TOKEN_KEY (items (storage w))) /\
  result getAuthToken w' = Normal None /\
  result getUserFromStorage (after getAuthToken w') = Normal None.
Proof.
  intros Hworks. unfold result, after, logout. run.
  rewrite removeAuthToken_run. simpl.
  destruct (removeItem_works 3 TOKEN_KEY (storage w) Hworks)
    as (s1 & -> & Hitems1 & Hworks1).
  simpl. rewrite removeUserFromStorage_run. simpl.
  destruct (removeItem_works 2 USER_KEY s1 Hworks1) as (s2 & -> & Hitems2 & Hworks2).
  simpl. rewrite getAuthToken_run. simpl.
  destruct (getItem_works 1 TOKEN_KEY s2 Hworks2) as (s3 & -> & Hitems3 & Hworks3).
  simpl. rewrite getUserFromStorage_run. simpl.
  destruct (getItem_works 0 USER_KEY s3 Hworks3) as (s4 & -> & Hitems4 & _).
  rewrite Hitems3, Hitems2, Hitems1.
  rewrite lookup_delete_eq, lookup_delete_ne by discriminate.
  rewrite lookup_delete_eq. auto.
Qed.

Lemma logout_clears_the_storage_witness :
  let w := world_of {[ TOKEN_KEY := "abc"; USER_KEY := ann_text;
                       "karaokeApp_singerName" := "Ann" ]} [] in
  let w' := after (@logout MemStorage _) w in
  items (storage w') = delete USER_KEY (delete TOKEN_KEY (items (storage w))) /\
  result getAuthToken w' = Normal None /\
  result (@getUserFromStorage _ _ sample_runtime) (after getAuthToken w') = Normal None.
Proof.
  apply (logout_clears_the_storage sample_runtime
           (world_of {[ TOKEN_KEY := "abc"; USER_KEY := ann_text;
                        "karaokeApp_singerName" := "Ann" ]} [])).
  repeat constructor.
Defined.

(** X16. With a readable profile in storage and no token (or the empty
    token), and the two reads working, the initialisation ends
    unauthenticated and leaves the profile in storage. *)
Theorem profile_without_token_is_kept
    (R : JSRuntime) (w : World MemStorage) (text : string) (storedUser : value) :
  works 2 (storage w) ->
  truthy_token (items (storage w) !! TOKEN_KEY) = false ->
  items (storage w) !! USER_KEY = Some text ->
  nonempty text = true ->
  profile_of text = Some storedUser ->
  status_of (auth (after initialize w)) = Unauthenticated /\
  items (storage (after initialize w)) = items (storage w).
Proof.
  intros Hworks Htoken Huser Htext Hprofile. unfold after, initialize. run.
  rewrite getAuthToken_run. simpl.
  destruct (getItem_works 1 TOKEN_KEY (storage w) Hworks)
    as (s1 & -> & Hitems1 & Hworks1).
  simpl. rewrite getUserFromStorage_run. simpl.
  destruct (getItem_works 0 USER_KEY s1 Hworks1) as (s2 & -> & Hitems2 & Hworks2).
  rewrite Hitems1, Huser, Htext. unfold profile_of in Hprofile.
  destruct (JSON_parse text) as [e | parsed]; [discriminate |].
  destruct (accepted parsed); [| discriminate]. simpl.
  rewrite Htoken. simpl. split; [reflexivity | congruence].
Qed.

Lemma profile_without_token_is_kept_witness :
  let w := world_of {[ USER_KEY := ann_text ]} [] in
  status_of (auth (after (@initialize _ _ sample_runtime) w)) = Unauthenticated /\
  items (storage (after (@initialize _ _ sample_runtime) w)) = items (storage w).
Proof.
  apply (profile_without_token_is_kept sample_runtime
           (world_of {[ USER_KEY := ann_text ]} []) ann_text (User.to_value ann)).
  - repeat constructor.
  - reflexivity.
  - reflexivity.
  - reflexivity.
  - vm_compute. reflexivity.
Defined.

(** X17. With a non-empty token and a profile in storage that has an
    email but not all of [id], [email] and [patronId] truthy, and the
    storage working, the initialisation ends unauthenticated and removes
    both entries. *)
Theorem unexpected_profile_clears_both
    (R : JSRuntime) (w : World MemStorage) (storedToken text : string)
    (storedUser : value) :
  works 4 (storage w) ->
  items (storage w) !! TOKEN_KEY = Some storedToken ->
  nonempty storedToken = true ->
  items (storage w) !! USER_KEY = Some text ->
  nonempty text = true ->
  JSON_parse text = inr storedUser ->
  accepted storedUser = true ->
  expected storedUser = false ->
  status_of (auth (after initialize w)) = Unauthenticated /\
  items (storage (after initialize w))
  = delete USER_KEY (delete TOKEN_KEY (items (storage w))).
Proof.
  intros Hworks Htoken Hnonempty Huser Htext Hparse Haccepted Hexpected.
  assert (Htruthy : truthy storedUser = true).
  { destruct storedUser; try discriminate. reflexivity. }
  unfold after, initialize. run.
  rewrite getAuthToken_run. simpl.
  destruct (getItem_works 3 TOKEN_KEY (storage w) Hworks)
    as (s1 & -> & Hitems1 & Hworks1).
  simpl. rewrite getUserFromStorage_run. simpl.
  destruct (getItem_works 2 USER_KEY s1 Hworks1) as (s2 & -> & Hitems2 & Hworks2).
  rewrite Hitems1, Huser, Htoken, Htext, Hparse, Haccepted. simpl.
  rewrite Hnonempty, Htruthy. simpl.
  rewrite expected_properties_run by exact Htruthy. rewrite Hexpected. simpl.
  rewrite removeAuthToken_run. simpl.
  destruct (removeItem_works 1 TOKEN_KEY s2 Hworks2) as (s3 & -> & Hitems3 & Hworks3).
  simpl. rewrite removeUserFromStorage_run. simpl.
  destruct (removeItem_works 0 USER_KEY s3 Hworks3) as (s4 & -> & Hitems4 & _).
  simpl. split; [reflexivity |]. rewrite Hitems4, Hitems3, Hitems2, Hitems1. reflexivity.
Qed.

Lemma unexpected_profile_clears_both_witness :
  let w := world_of {[ TOKEN_KEY := "abc"; USER_KEY := zoe_text ]} [] in
  status_of (auth (after (@initialize _ _ sample_runtime) w)) = Unauthenticated /\
  items (storage (after (@initialize _ _ sample_runtime) w))
  = delete USER_KEY (delete TOKEN_KEY (items (storage w))).
Proof.
  apply (unexpected_profile_clears_both sample_runtime
           (world_of {[ TOKEN_KEY := "abc"; USER_KEY := zoe_text ]} [])
           "abc" zoe_text (User.to_value zoe)).
  - repeat constructor.
  - reflexivity.
  - reflexivity.
  - reflexivity.
  - reflexivity.
  - vm_compute. reflexivity.
  - reflexivity.
  - reflexivity.
Defined.

(** ** The routes and the session *)

Section Routes.
Context {S : Type} `{LocalStorage S} `{JSRuntime}.

Lemma after_all_snoc (ts : list Transition) (t : Transition) (w : World S) :
  after_all (ts ++ [t]) w = after (transition t) (after_all ts w).
Proof. revert w. induction ts as [| t' rest IH]; intros w; simpl; [reflexivity | apply IH]. Qed.

Lemma loaded_after_initialize (ts : list Transition) (w : World S) :
  AuthState.isLoading (auth (after_all ts (after initialize w))) = false.
Proof.
  destruct (initialize_auth w) as [Hloaded Hinit].
  assert (Hpaired : paired (auth (after initialize w))).
  { destruct Hinit as [Hnone | (t & u & Ht & Hu & _ & Htruthy & _)];
      [left; exact Hnone | right; eauto]. }
  destruct (transitions_keep_pairing ts _ Hpaired) as [_ Hl]. congruence.
Qed.

(** X18. Once the provider has initialised, and after any logins and
    logouts, the protected route never shows its placeholder: it renders
    the protected page exactly when [isAuthenticated] holds, and
    otherwise redirects to [/login], remembering where the visitor was.
    Right after a logout it always redirects. *)
Theorem protected_route_follows_the_session
    (w page : World S) (ts : list Transition) (location : string) :
  let a := auth (after_all ts (after initialize w)) in
  let a' := auth (after_all (ts ++ [Logout]) (after initialize w)) in
  result (ProtectedRoute a location) page
  = Normal (if isAuthenticated a then Outlet
            else Navigate "/login" (Some location) true) /\
  result (ProtectedRoute a' location) page
  = Normal (Navigate "/login" (Some location) true).
Proof.
  simpl. split.
  - unfold result, ProtectedRoute. rewrite loaded_after_initialize.
    destruct (isAuthenticated _); reflexivity.
  - unfold result, ProtectedRoute. rewrite loaded_after_initialize.
    rewrite after_all_snoc. simpl. unfold isAuthenticated.
    rewrite logout_auth. reflexivity.
Qed.

(** X19. Once the provider has initialised, the route [/] never shows its
    placeholder: it sends an authenticated visitor to [/favorites] and
    anyone else to [/request]. Right after a login it is [/favorites]
    exactly when the token is not empty; right after a logout it is
    [/request]. *)
Theorem default_route_follows_the_session
    (w : World S) (ts : list Transition) (newToken : string) (loggedInUser : User.t) :
  let a := auth (after_all ts (after initialize w)) in
  default_route a
  = (if isAuthenticated a then Navigate "/favorites" None true
     else Navigate "/request" None true) /\
  default_route (auth (after_all (ts ++ [Login newToken loggedInUser]) (after initialize w)))
  = (if nonempty newToken then Navigate "/favorites" None true
     else Navigate "/request" None true) /\
  default_route (auth (after_all (ts ++ [Logout]) (after initialize w)))
  = Navigate "/request" None true.
Proof.
  simpl. unfold default_route. rewrite !loaded_after_initialize.
  split; [reflexivity |]. rewrite !after_all_snoc. simpl.
  unfold isAuthenticated. rewrite login_auth, logout_auth. simpl.
  rewrite andb_true_r. split; reflexivity.
Qed.
End Routes.

(** ** The components that call the request client *)

Lemma truthy_error_text (err : Exn) (fallback : string) :
  nonempty fallback = true -> truthy (error_text err fallback) = true.
Proof. intros Hf. unfold error_text. apply truthy_or_else, truthy_or_else. exact Hf. Qed.

(** A request seen from a handler: its outcome, and the world it
    leaves. *)
Lemma handleRequest_outcome
    {S : Type} (R : JSRuntime) (network : Request -> FetchOutcome)
    (url : string) (options : RequestInit.t) (w : World S) :
  exists r w',
    handleRequest network url options w = (r, w') /\
    request_frame (config_of url options) w w'.
Proof.
  pose proof (handleRequest_frame R network url options w) as Hframe.
  unfold after in Hframe.
  destruct (handleRequest network url options w) as [r w']. eauto.
Qed.

(** X20. [fetchFavorites] always completes and ends with [loading] off
    and the favourites an array. Without a token (none, or the empty
    one) it issues no request and shows "Authentication token not found.
    Please log in.". With a token it issues exactly one request, carrying
    the bearer header, and then either shows no error, or shows a
    non-empty error with the list emptied. *)
Theorem fetchFavorites_settles
    {S : Type} (R : JSRuntime) (network : Request -> FetchOutcome)
    (token : option string) (w : World (S * Favorites.t)) :
  let w' := after (fetchFavorites network token) w in
  result (fetchFavorites network token) w = Normal tt /\
  Favorites.loading (local w') = false /\
  (exists songs, Favorites.favoriteSongs (local w') = VArr songs) /\
  if truthy_token token then
    (exists request,
       issued w' = (issued w ++ [request])%list /\
       req_headers request !! "Authorization" = Some ("Bearer " ++ the_token token)) /\
    (Favorites.error (local w') = None \/
     (Favorites.favoriteSongs (local w') = VArr [] /\
      exists e, Favorites.error (local w') = Some e /\ truthy e = true))
  else
    issued w' = issued w /\
    Favorites.favoriteSongs (local w') = VArr [] /\
    Favorites.error (local w')
    = Some (VStr "Authentication token not found. Please log in.").
Proof.
  unfold result, after, fetchFavorites, local.
  destruct (truthy_token token) eqn:Htoken; simpl.
  2: { unfold Favorites_setError, Favorites_setLoading, setFavoriteSongs, set_local.
       run. repeat split; eauto. }
  assert (Hnonempty : nonempty (the_token token) = true).
  { destruct token; [exact Htoken | discriminate]. }
  unfold getFavoriteSongs, getAuthHeaders. rewrite Hnonempty.
  unfold Favorites_setError, Favorites_setLoading, setFavoriteSongs, set_local.
  run.
  match goal with
  | |- context [handleRequest network ?url ?options ?w0] =>
      destruct (handleRequest_outcome R network url options w0)
        as (r & w1 & -> & Hs & Ha & Hh & Hi & Hc);
      pose proof (bearer_header_sent (the_token token)) as Hbearer
  end.
  simpl in *.
  destruct r as [response | err]; simpl.
  - destruct response as [| | b | n | s | songs | fields]; simpl;
      repeat split; eauto; rewrite ?Hs; simpl; auto;
      try (right; split; [reflexivity |]; eexists; split; [reflexivity |];
           apply truthy_error_text; reflexivity).
    destruct (assoc "favorites" fields); simpl; eauto.
  - repeat split; eauto.
    right. split; [reflexivity |]. eexists. split; [reflexivity |].
    apply truthy_error_text. reflexivity.
Qed.

(** X21. A click on the favourite button always completes. When the
    visitor is not authenticated it issues no request and shows "Please
    log in to manage favorites.". When a toggle is already in flight it
    changes nothing at all. Otherwise it issues exactly one request with
    the bearer header, a DELETE in the favourites list and a POST
    elsewhere, and ends with [loadingFavorite] off and either no error or
    a non-empty one. *)
Theorem toggle_favorite_settles
    {S : Type} (R : JSRuntime) (network : Request -> FetchOutcome)
    (a : AuthState.t) (isFavoriteList : bool) (song_id : float)
    (loadingFavorite : bool) (w : World (S * FavoriteButton.t)) :
  let click :=
    handleToggleFavorite network a isFavoriteList song_id None loadingFavorite in
  let w' := after click w in
  result click w = Normal tt /\
  if isAuthenticated a && truthy_token (AuthState.token a) then
    if loadingFavorite then w' = w
    else
      (exists request,
         issued w' = (issued w ++ [request])%list /\
         req_method request = Some (if isFavoriteList then "DELETE" else "POST") /\
         req_headers request !! "Authorization"
         = Some ("Bearer " ++ the_token (AuthState.token a))) /\
      FavoriteButton.loadingFavorite (local w') = false /\
      (FavoriteButton.errorFavorite (local w') = None \/
       exists e, FavoriteButton.errorFavorite (local w') = Some e /\ truthy e = true)
  else
    issued w' = issued w /\
    FavoriteButton.errorFavorite (local w')
    = Some (VStr "Please log in to manage favorites.").
Proof.
  unfold result, after, handleToggleFavorite, local.
  destruct (isAuthenticated a) eqn:Hauth; simpl;
    [| unfold setErrorFavorite, set_local; run; auto].
  destruct (truthy_token (AuthState.token a)) eqn:Htoken; simpl;
    [| unfold setErrorFavorite, set_local; run; auto].
  destruct loadingFavorite; simpl; [destruct w; auto |].
  assert (Hnonempty : nonempty (the_token (AuthState.token a)) = true).
  { destruct (AuthState.token a); [exact Htoken | discriminate]. }
  pose proof (bearer_header_sent (the_token (AuthState.token a))) as Hbearer.
  unfold removeSongFromFavorites, addSongToFavorites, getAuthHeaders, call_optional.
  rewrite Hnonempty.
  unfold setLoadingFavorite, setErrorFavorite, set_local.
  destruct isFavoriteList; run;
    match goal with
    | |- context [handleRequest network ?url ?options ?w0] =>
        destruct (handleRequest_outcome R network url options w0)
          as (r & w1 & -> & Hs & Ha & Hh & Hi & Hc)
    end;
    simpl in *;
    destruct r as [response | err]; simpl; rewrite ?Hs; simpl;
    (split; [reflexivity |]); (split; [eauto |]); (split; [reflexivity |]);
    first [ left; reflexivity
          | right; eexists; split; [reflexivity |];
            apply truthy_error_text; reflexivity ].
Qed.

Lemma network_down_rejects
    {S : Type} (R : JSRuntime) (network : Request -> FetchOutcome)
    (url : string) (options : RequestInit.t) (w : World S) (e : NativeError) :
  (forall request, network request = NetworkFailure e) ->
  exists err w', handleRequest network url options w = (Throw err, w').
Proof.
  intros Hdown. unfold handleRequest, fetch. run. rewrite Hdown. simpl. eauto.
Qed.

(** X22. [onFavoritesChange] is not called when the request fails: with
    the network down, a click with a callback leaves exactly what the
    same click without one leaves. *)
Theorem callback_is_skipped_on_failure
    {S : Type} (R : JSRuntime) (network : Request -> FetchOutcome)
    (a : AuthState.t) (isFavoriteList : bool) (song_id : float)
    (loadingFavorite : bool) (onFavoritesChange : M (S * FavoriteButton.t) unit)
    (w : World (S * FavoriteButton.t)) (e : NativeError) :
  (forall request, network request = NetworkFailure e) ->
  handleToggleFavorite network a isFavoriteList song_id (Some onFavoritesChange)
    loadingFavorite w
  = handleToggleFavorite network a isFavoriteList song_id None loadingFavorite w.
Proof.
  intros Hdown. unfold handleToggleFavorite.
  destruct (negb (isAuthenticated a) || negb (truthy_token (AuthState.token a)));
    [reflexivity |].
  destruct loadingFavorite; [reflexivity |].
  unfold removeSongFromFavorites, addSongToFavorites, getAuthHeaders, call_optional.
  destruct (negb (nonempty (the_token (AuthState.token a)))); [reflexivity |].
  unfold setLoadingFavorite, setErrorFavorite, set_local.
  destruct isFavoriteList; run;
    match goal with
    | |- context [handleRequest network ?url ?options ?w0] =>
        destruct (network_down_rejects R network url options w0 e Hdown)
          as (err & w1 & ->)
    end;
    reflexivity.
Qed.

Lemma callback_is_skipped_on_failure_witness :
  let network := fun _ : Request => NetworkFailure (mkNativeError "Failed to fetch" None) in
  let a := AuthState.mk (Some "abc") (Some (User.to_value ann)) false in
  let w := mount FavoriteButton.initial (world_of ∅ []) in
  @handleToggleFavorite MemStorage sample_runtime network a true 7
    (Some (navigate "/favorites" false)) false w
  = @handleToggleFavorite MemStorage sample_runtime network a true 7 None false w.
Proof.
  apply (@callback_is_skipped_on_failure MemStorage sample_runtime
           (fun _ => NetworkFailure (mkNativeError "Failed to fetch" None))
           (AuthState.mk (Some "abc") (Some (User.to_value ann)) false) true 7 false
           (navigate "/favorites" false)
           (mount FavoriteButton.initial (world_of ∅ []))
           (mkNativeError "Failed to fetch" None)).
  intros request. reflexivity.
Defined.

Ltac health_state :=
  unfold Health_setStatus, Health_setUptime, Health_setLoading, Health_setError,
    set_local.

(** X23. The health check always completes: it issues exactly one
    request, which accepts plain text beside JSON and carries no
    [Authorization] header, and it ends with [loading] off and both a
    status and an uptime to show. Either there is no error, or the status
    shown is "Error", the uptime "N/A" and the error is not empty. *)
Theorem checkHealth_settles
    {S : Type} (R : JSRuntime) (network : Request -> FetchOutcome)
    (w : World (S * Health.t)) :
  let w' := after (checkHealth network) w in
  result (checkHealth network) w = Normal tt /\
  (exists request,
     issued w' = (issued w ++ [request])%list /\
     req_headers request !! "Accept" = Some "application/json, text/plain, */*" /\
     req_headers request !! "Authorization" = None) /\
  Health.loading (local w') = false /\
  (exists status uptime,
     Health.status (local w') = Some status /\ Health.uptime (local w') = Some uptime) /\
  (Health.error (local w') = None \/
   (Health.status (local w') = Some (VStr "Error") /\
    Health.uptime (local w') = Some (VStr "N/A") /\
    exists e, Health.error (local w') = Some e /\ truthy e = true)).
Proof.
  unfold result, after, checkHealth, getHealth, local. health_state. run.
  match goal with
  | |- context [handleRequest network ?url ?options ?w0] =>
      destruct (handleRequest_outcome R network url options w0)
        as (r & w1 & -> & Hs & Ha & Hh & Hi & Hc)
  end.
  simpl in *.
  assert (Herr : forall err,
    exists e, Some (error_text err "Failed to connect to API.") = Some e /\ truthy e = true).
  { intros err. eexists. split; [reflexivity |]. apply truthy_error_text. reflexivity. }
  destruct r as [response | err]; simpl.
  - destruct response as [| | b | n | s | entries | fields]; simpl;
      rewrite ?Hs; simpl;
      try (repeat split; eauto; fail).
    destruct (existsb _ fields); simpl; rewrite ?Hs; simpl;
      repeat split; eauto.
  - rewrite ?Hs. simpl. repeat split; eauto 10.
Qed.

(** X24. When the API answers the health check with a status in 200-299
    other than 204 and a body that is not JSON, the page shows that text
    as the status, "N/A" as the uptime and no error. *)
Theorem plain_text_health_is_shown
    {S : Type} (R : JSRuntime) (network : Request -> FetchOutcome)
    (w : World (S * Health.t)) (response : Response.t) (body : string)
    (e : NativeError) :
  (forall request, network request = Responded response) ->
  Response.ok response = true ->
  Response.status response <> 204%N ->
  Response.text response = inr body ->
  JSON_parse body = inl e ->
  local (after (checkHealth network) w)
  = Health.mk (Some (VStr body)) (Some (VStr "N/A")) false None.
Proof.
  intros Hnet Hok Hstatus Htext Hparse.
  unfold after, checkHealth, getHealth, local, handleRequest, fetch, parse_body.
  health_state. run. rewrite Hnet. simpl.
  apply N.eqb_neq in Hstatus. rewrite Hstatus, Htext. simpl.
  rewrite Hparse. simpl. rewrite Hok. reflexivity.
Qed.

Lemma plain_text_health_is_shown_witness :
  local (after (@checkHealth MemStorage sample_runtime (answers 200 "OK" "OK"))
           (mount Health.initial (world_of ∅ [])))
  = Health.mk (Some (VStr "OK")) (Some (VStr "N/A")) false None.
Proof.
  apply (@plain_text_health_is_shown MemStorage sample_runtime (answers 200 "OK" "OK")
           (mount Health.initial (world_of ∅ []))
           (Response.mk 200 "OK" (inr "OK")) "OK" syntax_error).
  - intros request. reflexivity.
  - reflexivity.
  - discriminate.
  - reflexivity.
  - reflexivity.
Defined.

(** X25. Once the provider has initialised, and after any logins and
    logouts, the effect of [MyFavorites] does what [fetchFavorites] does
    with the token of the session when the visitor is authenticated;
    otherwise it issues no request, empties the list, turns [loading] off
    and shows "You must be logged in to view your favorites.". *)
Theorem favorites_effect_follows_the_session
    {S0 S : Type} (LS : LocalStorage S0) (R : JSRuntime)
    (network : Request -> FetchOutcome)
    (w0 : World S0) (ts : list Transition) (w : World (S * Favorites.t)) :
  let a := auth (after_all ts (after initialize w0)) in
  let w' := after (Favorites_effect network a) w in
  if isAuthenticated a then
    Favorites_effect network a w = fetchFavorites network (AuthState.token a) w /\
    truthy_token (AuthState.token a) = true
  else
    issued w' = issued w /\
    local w'
    = Favorites.mk (VArr []) false
        (Some (VStr "You must be logged in to view your favorites.")).
Proof.
  simpl. unfold after at 3, Favorites_effect, local.
  rewrite loaded_after_initialize.
  destruct (isAuthenticated _) eqn:Hauth; simpl.
  - split; [reflexivity |]. unfold isAuthenticated in Hauth.
    apply andb_prop in Hauth as [Htoken _]. exact Htoken.
  - unfold Favorites_setError, Favorites_setLoading, setFavoriteSongs, set_local.
    run. auto.
Qed.

Lemma without_ids_lookup (userData : list (string * value)) (k : string) :
  assoc k (without_ids userData)
  = if String.eqb k "id" || String.eqb k "patronId" then VUndefined
    else assoc k userData.
Proof.
  induction userData as [| [k' v] rest IH]; simpl.
  - destruct (_ || _); reflexivity.
  - destruct (String.eqb k' "id") eqn:Hid; simpl.
    + rewrite IH. apply String.eqb_eq in Hid. subst k'.
      destruct (String.eqb k "id") eqn:Hk; reflexivity.
    + destruct (String.eqb k' "patronId") eqn:Hpid; simpl.
      * rewrite IH. apply String.eqb_eq in Hpid. subst k'.
        destruct (String.eqb k "patronId") eqn:Hk;
          [rewrite orb_true_r; reflexivity | reflexivity].
      * destruct (String.eqb k k') eqn:Hkk; [| exact IH].
        apply String.eqb_eq in Hkk. subst k'. rewrite Hid, Hpid. reflexivity.
Qed.

(** X26. [registerUser] posts the form without the frontend's identifiers:
    the object it serialises has neither [id] nor [patronId] whatever the
    caller passed, and every other property has the caller's value. *)
Theorem registerUser_strips_the_identifiers
    {S : Type} (R : JSRuntime) (network : Request -> FetchOutcome)
    (userData : list (string * value)) (w : World S) :
  exists request dataToSend,
    issued (after (registerUser network userData) w) = (issued w ++ [request])%list /\
    req_method request = Some "POST" /\
    req_body request = Some (JSON_stringify dataToSend) /\
    assoc "id" dataToSend = VUndefined /\
    assoc "patronId" dataToSend = VUndefined /\
    forall k, k <> "id" -> k <> "patronId" -> assoc k dataToSend = assoc k userData.
Proof.
  unfold registerUser.
  match goal with
  | |- context [handleRequest network ?url ?options] =>
      exists (config_of url options), (without_ids userData);
      destruct (handleRequest_frame R network url options w)
        as (_ & _ & _ & Hissued & _)
  end.
  split; [exact Hissued |]. split; [reflexivity |]. split; [reflexivity |].
  split; [| split].
  - rewrite without_ids_lookup. reflexivity.
  - rewrite without_ids_lookup. reflexivity.
  - intros k Hid Hpid. rewrite without_ids_lookup.
    apply String.eqb_neq in Hid, Hpid. rewrite Hid, Hpid. reflexivity.
Qed.
